(** * Verification model of the pgvector / Supabase datastore and of the
      command endpoint of the local server.

    Sources embedded here:
    - models/models.py                               (data model)
    - datastore/providers/pgvector_datastore.py      (PGClient, PgVectorDataStore)
    - datastore/providers/supabase_datastore.py      (SupabaseClient)
    - local_server/main.py                           (create_command endpoint)

    Python values that cross the backend boundary are modelled by [pyval];
    async code runs in a small state and exception monad [M] whose world
    records the backend calls, the sleeps, the wall clock and the error log.
    Numbers (ints and floats) are modelled as [Z]: they are only passed
    through or compared, never computed with. *)

From Stdlib Require Import String Ascii List ZArith Lia Bool.
Import ListNotations.
Open Scope string_scope.
#[local] Set Warnings "-register-all".

(** ** Python values *)

Inductive pyval : Type :=
| PNone
| PBool (b : bool)
| PNum (z : Z)
| PStr (s : string)
| PEnum (cls : string) (value : pyval)   (* a member of an [Enum] subclass *)
| PDateTime (t : Z)                      (* a [datetime] at unix time [t] *)
| PTuple (l : list pyval)
| PList (l : list pyval)
| PDict (kvs : list (string * pyval)).   (* insertion-ordered [dict] *)

Definition is_PNone (v : pyval) : bool :=
  match v with PNone => true | _ => false end.

(** [bool(v)]. A [str]-mixin enum member takes the truth value of its
    string value. *)
Fixpoint py_truthy (v : pyval) : bool :=
  match v with
  | PNone => false
  | PBool b => b
  | PNum z => negb (Z.eqb z 0)
  | PStr s => negb (String.eqb s "")
  | PEnum _ x => py_truthy x
  | PDateTime _ => true
  | PTuple l | PList l => match l with [] => false | _ => true end
  | PDict kvs => match kvs with [] => false | _ => true end
  end.

(** Truth value of the [Optional[str]] fields of the pydantic models. *)
Definition opt_truthy (o : option string) : bool :=
  match o with Some s => negb (String.eqb s "") | None => false end.

Definition opt_str (o : option string) : pyval :=
  match o with Some s => PStr s | None => PNone end.

(** ** Data model (models/models.py) *)

Inductive Source := EMAIL | FILE | CHAT.

Definition Source_value (s : Source) : string :=
  match s with EMAIL => "EMAIL" | FILE => "FILE" | CHAT => "CHAT" end.

Definition Source_of_string (s : string) : option Source :=
  if String.eqb s "EMAIL" then Some EMAIL
  else if String.eqb s "FILE" then Some FILE
  else if String.eqb s "CHAT" then Some CHAT
  else None.

Definition py_source (s : Source) : pyval := PEnum "Source" (PStr (Source_value s)).

Definition opt_source (o : option Source) : pyval :=
  match o with Some s => py_source s | None => PNone end.

Inductive CommandStatus := NEW | PROCESSING | COMPLETED | ABANDONED | ERROR.

Definition CommandStatus_value (s : CommandStatus) : string :=
  match s with
  | NEW => "NEW" | PROCESSING => "PROCESSING" | COMPLETED => "COMPLETED"
  | ABANDONED => "ABANDONED" | ERROR => "ERROR"
  end.

Definition CommandStatus_of_string (s : string) : option CommandStatus :=
  if String.eqb s "NEW" then Some NEW
  else if String.eqb s "PROCESSING" then Some PROCESSING
  else if String.eqb s "COMPLETED" then Some COMPLETED
  else if String.eqb s "ABANDONED" then Some ABANDONED
  else if String.eqb s "ERROR" then Some ERROR
  else None.

Definition CommandStatus_eqb (a b : CommandStatus) : bool :=
  String.eqb (CommandStatus_value a) (CommandStatus_value b).

Inductive CommandType := CREATE_NOTE | MODIFY_NOTE | DELETE_NOTE.

Definition CommandType_value (t : CommandType) : string :=
  match t with
  | CREATE_NOTE => "CREATE_NOTE" | MODIFY_NOTE => "MODIFY_NOTE"
  | DELETE_NOTE => "DELETE_NOTE"
  end.

Record DocumentMetadata := {
  md_source : option Source;
  md_source_id : option string;
  md_url : option string;
  md_created_at : option string;
  md_author : option string }.

Record DocumentChunkMetadata := {
  cm_source : option Source;
  cm_source_id : option string;
  cm_url : option string;
  cm_created_at : option string;
  cm_author : option string;
  cm_document_id : option string }.

Record DocumentChunk := {
  chunk_id : option string;
  chunk_text : string;
  chunk_metadata : DocumentChunkMetadata;
  chunk_embedding : option (list pyval) }.

(** [DocumentChunkWithScore(DocumentChunk)]: the chunk fields and [score]. *)
Record DocumentChunkWithScore := {
  dcs_chunk : DocumentChunk;
  dcs_score : Z }.

Record DocumentMetadataFilter := {
  f_document_id : option string;
  f_source : option Source;
  f_source_id : option string;
  f_author : option string;
  f_start_date : option string;
  f_end_date : option string }.

Record QueryWithEmbedding := {
  q_query : string;
  q_filter : option DocumentMetadataFilter;
  q_top_k : option Z;
  q_embedding : list pyval }.

Record QueryResult := {
  qr_query : string;
  qr_results : list DocumentChunkWithScore }.

Record Command := {
  cmd_id : option string;
  cmd_status : CommandStatus;
  cmd_errors : option string;
  cmd_created_at : option string;
  cmd_updated_at : option string }.

Record CommandContent := {
  cc_text : string;
  cc_metadata : DocumentMetadata }.

(** [CommandWithContent(Command)]: the command fields, [type], [content]. *)
Record CommandWithContent := {
  cwc_id : option string;
  cwc_status : CommandStatus;
  cwc_errors : option string;
  cwc_created_at : option string;
  cwc_updated_at : option string;
  cwc_type : CommandType;
  cwc_content : CommandContent }.

Definition set_cwc_id (i : option string) (c : CommandWithContent) : CommandWithContent :=
  {| cwc_id := i; cwc_status := cwc_status c; cwc_errors := cwc_errors c;
     cwc_created_at := cwc_created_at c; cwc_updated_at := cwc_updated_at c;
     cwc_type := cwc_type c; cwc_content := cwc_content c |}.

Definition set_cwc_status (s : CommandStatus) (c : CommandWithContent) : CommandWithContent :=
  {| cwc_id := cwc_id c; cwc_status := s; cwc_errors := cwc_errors c;
     cwc_created_at := cwc_created_at c; cwc_updated_at := cwc_updated_at c;
     cwc_type := cwc_type c; cwc_content := cwc_content c |}.

(** pydantic v1 [.dict()]: fields in declaration order, nested models as
    dicts, enum members kept as members. *)
Definition metadata_dict (m : DocumentMetadata) : pyval :=
  PDict [("source", opt_source (md_source m)); ("source_id", opt_str (md_source_id m));
         ("url", opt_str (md_url m)); ("created_at", opt_str (md_created_at m));
         ("author", opt_str (md_author m))].

Definition command_with_content_dict (c : CommandWithContent) : pyval :=
  PDict [("id", opt_str (cwc_id c));
         ("status", PEnum "CommandStatus" (PStr (CommandStatus_value (cwc_status c))));
         ("errors", opt_str (cwc_errors c));
         ("created_at", opt_str (cwc_created_at c));
         ("updated_at", opt_str (cwc_updated_at c));
         ("type", PEnum "CommandType" (PStr (CommandType_value (cwc_type c))));
         ("content", PDict [("text", PStr (cc_text (cwc_content c)));
                            ("metadata", metadata_dict (cc_metadata (cwc_content c)))])].

(** [list(Command.schema().get('properties').keys())] *)
Definition Command_fields : list string :=
  ["id"; "status"; "errors"; "created_at"; "updated_at"].

(** ** Exceptions, backend calls and the world *)

Inductive exc :=
| TransportError (msg : string)
| KeyError (key : string)
| IndexError
| TypeError (msg : string)
| AttributeError (attr : string)
| ValidationError (msg : string)
| ValueError (msg : string)
| OutOfFuel.   (* the model's bound on [while True] loops; never caught *)

Inductive result (A : Type) := Ok (a : A) | Raise (e : exc).
Arguments Ok {A} a.
Arguments Raise {A} e.

(** Predicates of a PostgREST delete builder. *)
Inductive pred :=
| PEq (col : string) (v : pyval)
| PGte (col : string) (v : pyval)
| PLte (col : string) (v : pyval).

(** One [execute()] of the Supabase query builder. *)
Inductive call :=
| CUpsert (table : string) (json : pyval)
| CUpdate (table : string) (json : pyval) (id : pyval)
| CSelect (table : string) (columns : string) (id : string)
| CRpc (fn : string) (params : pyval)
| CDeleteLike (table column pattern : string)
| CDeleteIn (table column : string) (ids : list string)
| CDeleteWhere (table : string) (preds : list pred).

(** The backend's answer to one call: an error raised by [execute()] or
    the [response.data] it returns. *)
Inductive reply := RFail (msg : string) | ROk (data : pyval).

Inductive event := ECall (c : call) | ESleep (d : Z).

Inductive log_entry := LError (e : exc).

Record world := mkWorld {
  w_calls : nat;              (* backend calls made so far *)
  w_clock : Z;                (* [time.time()] *)
  w_trace : list event;
  w_log : list log_entry }.

(** What the program does not control: the backend's replies (the [k]-th
    call gets [respond k c]), the time each call takes, [uuid4()], and
    the library functions whose result is irrelevant to the claims. *)
Record Env := {
  respond : nat -> call -> reply;
  latency : nat -> Z;
  uuid4 : string;
  isoformat : Z -> string;           (* [datetime.isoformat()] *)
  to_unix_timestamp : string -> Z;   (* services.date.to_unix_timestamp *)
  fromtimestamp_ok : Z -> bool;      (* [datetime.fromtimestamp(t)] does not raise:
                                        the local date of [t] is within years 1..9999 *)
  str_of_num : Z -> string;          (* [str(n)] *)
  float_of_str : string -> option Z  (* [float(s)] *) }.

Definition M (A : Type) : Type := world -> result A * world.

Definition ret {A} (a : A) : M A := fun w => (Ok a, w).

Definition bind {A B} (m : M A) (k : A -> M B) : M B :=
  fun w => match m w with
           | (Ok a, w') => k a w'
           | (Raise e, w') => (Raise e, w')
           end.

Notation "x <- c1 ;; c2" := (bind c1 (fun x => c2))
  (at level 61, c1 at next level, right associativity).
Notation "e1 ;; e2" := (bind e1 (fun _ => e2))
  (at level 61, right associativity).

Definition raise {A} (e : exc) : M A := fun w => (Raise e, w).

Definition lift {A} (r : result A) : M A := fun w => (r, w).

(** [try: m except: h(e)]; [OutOfFuel] is not a Python exception. *)
Definition py_try {A} (m : M A) (h : exc -> M A) : M A :=
  fun w => match m w with
           | (Raise OutOfFuel, w') => (Raise OutOfFuel, w')
           | (Raise e, w') => h e w'
           | r => r
           end.

Definition time : M Z := fun w => (Ok (w_clock w), w).

Definition sleep (d : Z) : M unit :=
  fun w => (Ok tt, mkWorld (w_calls w) (w_clock w + d)%Z
                           (w_trace w ++ [ESleep d])%list (w_log w)).

Definition log_error (e : exc) : M unit :=
  fun w => (Ok tt, mkWorld (w_calls w) (w_clock w) (w_trace w)
                           (w_log w ++ [LError e])%list).

Definition execute (E : Env) (c : call) : M pyval :=
  fun w =>
    let k := w_calls w in
    let w' := mkWorld (S k) (w_clock w + latency E k)%Z
                      (w_trace w ++ [ECall c])%list (w_log w) in
    match respond E k c with
    | RFail m => (Raise (TransportError m), w')
    | ROk data => (Ok data, w')
    end.

(** ** Python operations on values *)

(** [v[key]] for a string key. *)
Definition py_getitem_key (v : pyval) (key : string) : result pyval :=
  match v with
  | PDict kvs =>
      match find (fun kv => String.eqb (fst kv) key) kvs with
      | Some (_, x) => Ok x
      | None => Raise (KeyError key)
      end
  | _ => Raise (TypeError "indices must be integers")
  end.

(** [v[i]] for an int index [i >= 0]. *)
Definition py_getitem_idx (v : pyval) (i : nat) : result pyval :=
  match v with
  | PList l | PTuple l =>
      match nth_error l i with Some x => Ok x | None => Raise IndexError end
  | PStr s =>
      match String.get i s with
      | Some c => Ok (PStr (String c EmptyString))
      | None => Raise IndexError
      end
  | PDict _ => Raise (KeyError "0")
  | _ => Raise (TypeError "object is not subscriptable")
  end.

(** [key in v] for a dict [v]. *)
Definition py_contains (v : pyval) (key : string) : bool :=
  match v with
  | PDict kvs => existsb (fun kv => String.eqb (fst kv) key) kvs
  | _ => false
  end.

(** [d[key] = x] on a dict: overwrite in place or append. *)
Fixpoint dict_set (kvs : list (string * pyval)) (key : string) (x : pyval)
  : list (string * pyval) :=
  match kvs with
  | [] => [(key, x)]
  | (k, y) :: r => if String.eqb k key then (k, x) :: r else (k, y) :: dict_set r key x
  end.

Definition py_setitem_key (v : pyval) (key : string) (x : pyval) : result pyval :=
  match v with
  | PDict kvs => Ok (PDict (dict_set kvs key x))
  | _ => Raise (TypeError "object does not support item assignment")
  end.

(** [v.isoformat()]: only a [datetime] has the method. *)
Definition py_isoformat (E : Env) (v : pyval) : result pyval :=
  match v with
  | PDateTime t => Ok (PStr (isoformat E t))
  | _ => Raise (AttributeError "isoformat")
  end.

(** [datetime.fromtimestamp(t)]: a [datetime], or [ValueError] (the year
    is out of range) for a timestamp the host cannot convert. *)
Definition py_fromtimestamp (E : Env) (t : Z) : result pyval :=
  if fromtimestamp_ok E t then Ok (PDateTime t)
  else Raise (ValueError "year is out of range").

Fixpoint string_chars (s : string) : list pyval :=
  match s with
  | EmptyString => []
  | String c r => PStr (String c EmptyString) :: string_chars r
  end.

(** [for x in v]: the elements [v] iterates over. *)
Definition py_iter (v : pyval) : result (list pyval) :=
  match v with
  | PList l | PTuple l => Ok l
  | PDict kvs => Ok (map (fun kv => PStr (fst kv)) kvs)
  | PStr s => Ok (string_chars s)
  | _ => Raise (TypeError "object is not iterable")
  end.

(** [float(v)] *)
Definition py_float (E : Env) (v : pyval) : result Z :=
  match v with
  | PNum z => Ok z
  | PBool b => Ok (if b then 1 else 0)%Z
  | PStr s => match float_of_str E s with Some z => Ok z | None => Raise (ValueError s) end
  | _ => Raise (TypeError "float() argument must be a string or a real number")
  end.

(** ** SupabaseClient (supabase_datastore.py) *)

(** [SupabaseClient._convert_object_to_serializable_json] *)
Fixpoint convert_object_to_serializable_json (data : pyval) : pyval :=
  match data with
  | PDict kvs =>
      PDict ((fix go (kvs : list (string * pyval)) : list (string * pyval) :=
                match kvs with
                | [] => []
                | (k, v) :: r =>
                    if is_PNone v then go r
                    else (k, convert_object_to_serializable_json v) :: go r
                end) kvs)
  | PList l => PList (map convert_object_to_serializable_json l)
  | PEnum _ v => v
  | _ => data
  end.

(** The interface [PGClient] of pgvector_datastore.py. *)
Class PGClient := {
  upsert : string -> pyval -> M unit;
  update : string -> pyval -> M unit;
  rpc : string -> pyval -> M pyval;
  delete_like : string -> string -> string -> M unit;
  delete_in : string -> string -> list string -> M unit;
  delete_by_filters : string -> DocumentMetadataFilter -> M unit;
  get_by_id : string -> string -> option (list string) -> M pyval }.

Section Supabase.
Context (E : Env).

Definition supabase_upsert (table : string) (json : pyval) : M unit :=
  json <- ret (convert_object_to_serializable_json json);;
  json <- (if py_contains json "created_at" then
             v <- lift (py_getitem_key json "created_at");;
             v0 <- lift (py_getitem_idx v 0);;
             s <- lift (py_isoformat E v0);;
             lift (py_setitem_key json "created_at" s)
           else ret json);;
  py_try (execute E (CUpsert table json);; ret tt)
         (fun e => log_error e).

Definition supabase_update (table : string) (json : pyval) : M unit :=
  json <- ret (convert_object_to_serializable_json json);;
  i <- lift (py_getitem_key json "id");;
  execute E (CUpdate table json i);;
  ret tt.

Definition supabase_get_by_id (table id : string) (columns : option (list string)) : M pyval :=
  let columns := match columns with None => ["*"] | Some c => c end in
  execute E (CSelect table (String.concat "," columns) id).

(** [params[k] = params[k].isoformat()] when [k in params]. *)
Definition isoformat_param (params : pyval) (k : string) : M pyval :=
  if py_contains params k then
    v <- lift (py_getitem_key params k);;
    s <- lift (py_isoformat E v);;
    lift (py_setitem_key params k s)
  else ret params.

Definition supabase_rpc (function_name : string) (params : pyval) : M pyval :=
  params <- isoformat_param params "in_start_date";;
  params <- isoformat_param params "in_end_date";;
  execute E (CRpc function_name params).

Definition supabase_delete_like (table column pattern : string) : M unit :=
  execute E (CDeleteLike table column pattern);; ret tt.

Definition supabase_delete_in (table column : string) (ids : list string) : M unit :=
  execute E (CDeleteIn table column ids);; ret tt.

(** [filter.start_date[0].isoformat()] on the [Optional[str]] field. *)
Definition date_bound (d : string) : result pyval :=
  match py_getitem_idx (PStr d) 0 with
  | Ok v0 => py_isoformat E v0
  | Raise e => Raise e
  end.

(** [if field: builder = builder.eq(col, field)] *)
Definition eq_pred (col : string) (o : option string) : list pred :=
  match o with
  | Some d => if opt_truthy (Some d) then [PEq col (PStr d)] else []
  | None => []
  end.

(** [if field: builder = builder.gte/lte("created_at", field[0].isoformat())] *)
Definition date_pred (mk : pyval -> pred) (o : option string) : result (list pred) :=
  match o with
  | Some d =>
      if opt_truthy (Some d)
      then match date_bound d with Ok v => Ok [mk v] | Raise e => Raise e end
      else Ok []
  | None => Ok []
  end.

(** The chain of [builder.eq/gte/lte] of [delete_by_filters]. *)
Definition filter_predicates (filter : DocumentMetadataFilter) : result (list pred) :=
  let p_src := match f_source filter with
               | Some s => [PEq "source" (py_source s)]
               | None => [] end in
  match date_pred (PGte "created_at") (f_start_date filter) with
  | Raise e => Raise e
  | Ok p_start =>
      match date_pred (PLte "created_at") (f_end_date filter) with
      | Raise e => Raise e
      | Ok p_end =>
          Ok (eq_pred "document_id" (f_document_id filter) ++ p_src
              ++ eq_pred "source_id" (f_source_id filter)
              ++ eq_pred "author" (f_author filter) ++ p_start ++ p_end)%list
      end
  end.

Definition supabase_delete_by_filters (table : string) (filter : DocumentMetadataFilter) : M unit :=
  preds <- lift (filter_predicates filter);;
  execute E (CDeleteWhere table preds);;
  ret tt.

End Supabase.

#[export] Instance SupabaseClient (E : Env) : PGClient := {|
  upsert := supabase_upsert E;
  update := supabase_update E;
  rpc := supabase_rpc E;
  delete_like := supabase_delete_like E;
  delete_in := supabase_delete_in E;
  delete_by_filters := supabase_delete_by_filters E;
  get_by_id := supabase_get_by_id E |}.

(** ** PgVectorDataStore (pgvector_datastore.py) *)

Definition rbind {A B} (r : result A) (k : A -> result B) : result B :=
  match r with Ok a => k a | Raise e => Raise e end.

Section PgVectorDataStore.
Context (E : Env) `{PGClient}.

(** pydantic v1 validators of the fields the code constructs. *)
Definition validate_str (v : pyval) : result string :=
  match v with
  | PStr s | PEnum _ (PStr s) => Ok s
  | PNum z => Ok (str_of_num E z)
  | PBool b => Ok (if b then "True" else "False")
  | _ => Raise (ValidationError "str type expected")
  end.

Definition validate_opt_str (v : pyval) : result (option string) :=
  match v with
  | PNone => Ok None
  | _ => rbind (validate_str v) (fun s => Ok (Some s))
  end.

Definition validate_opt_source (v : pyval) : result (option Source) :=
  match v with
  | PNone => Ok None
  | PStr s | PEnum _ (PStr s) =>
      match Source_of_string s with
      | Some x => Ok (Some x)
      | None => Raise (ValidationError "value is not a valid enumeration member")
      end
  | _ => Raise (ValidationError "value is not a valid enumeration member")
  end.

Definition validate_status (v : pyval) : result CommandStatus :=
  match v with
  | PStr s | PEnum _ (PStr s) =>
      match CommandStatus_of_string s with
      | Some x => Ok x
      | None => Raise (ValidationError "value is not a valid enumeration member")
      end
  | _ => Raise (ValidationError "value is not a valid enumeration member")
  end.

(** A keyword argument of [Model( **row)]: [None] when the key is absent. *)
Definition kwarg (row : list (string * pyval)) (k : string) : option pyval :=
  match find (fun kv => String.eqb (fst kv) k) row with
  | Some (_, v) => Some v
  | None => None
  end.

Definition kw_opt_str (row : list (string * pyval)) (k : string) : result (option string) :=
  match kwarg row k with Some v => validate_opt_str v | None => Ok None end.

(** [Command( **row)] *)
Definition command_of_row (row : pyval) : result Command :=
  match row with
  | PDict kvs =>
      rbind (kw_opt_str kvs "id") (fun i =>
      rbind (match kwarg kvs "status" with Some v => validate_status v | None => Ok NEW end) (fun st =>
      rbind (kw_opt_str kvs "errors") (fun er =>
      rbind (kw_opt_str kvs "created_at") (fun ca =>
      rbind (kw_opt_str kvs "updated_at") (fun ua =>
      Ok {| cmd_id := i; cmd_status := st; cmd_errors := er;
            cmd_created_at := ca; cmd_updated_at := ua |})))))
  | _ => Raise (TypeError "argument after ** must be a mapping")
  end.

(** The [DocumentChunkWithScore(...)] built from one row of [match_page_sections]. *)
Definition row_to_chunk (row : pyval) : result DocumentChunkWithScore :=
  rbind (py_getitem_key row "id") (fun r_id =>
  rbind (py_getitem_key row "content") (fun r_content =>
  rbind (rbind (py_getitem_key row "similarity") (py_float E)) (fun score =>
  rbind (py_getitem_key row "source") (fun r_source =>
  rbind (py_getitem_key row "source_id") (fun r_source_id =>
  rbind (py_getitem_key row "document_id") (fun r_document_id =>
  rbind (py_getitem_key row "url") (fun r_url =>
  rbind (py_getitem_key row "created_at") (fun r_created_at =>
  rbind (py_getitem_key row "author") (fun r_author =>
  rbind (validate_opt_source r_source) (fun source =>
  rbind (validate_opt_str r_source_id) (fun source_id =>
  rbind (validate_opt_str r_document_id) (fun document_id =>
  rbind (validate_opt_str r_url) (fun url =>
  rbind (validate_opt_str r_created_at) (fun created_at =>
  rbind (validate_opt_str r_author) (fun author =>
  rbind (validate_opt_str r_id) (fun id =>
  rbind (validate_str r_content) (fun text =>
  Ok {| dcs_chunk := {| chunk_id := id; chunk_text := text;
                        chunk_metadata := {| cm_source := source; cm_source_id := source_id;
                                             cm_url := url; cm_created_at := created_at;
                                             cm_author := author; cm_document_id := document_id |};
                        chunk_embedding := None |};
        dcs_score := score |}))))))))))))))))).

Fixpoint rows_to_chunks (rows : list pyval) : result (list DocumentChunkWithScore) :=
  match rows with
  | [] => Ok []
  | r :: rest =>
      rbind (row_to_chunk r) (fun c =>
      rbind (rows_to_chunks rest) (fun cs => Ok (c :: cs)))
  end.

(** The [json] record of one chunk in [_upsert]. *)
Definition chunk_json (document_id : string) (chunk : DocumentChunk) : result pyval :=
  let m := chunk_metadata chunk in
  let json := [("id", opt_str (chunk_id chunk)); ("content", PStr (chunk_text chunk));
               ("embedding", match chunk_embedding chunk with Some l => PList l | None => PNone end);
               ("document_id", PStr document_id); ("source", opt_source (cm_source m));
               ("source_id", opt_str (cm_source_id m)); ("url", opt_str (cm_url m));
               ("author", opt_str (cm_author m))] in
  match cm_created_at m with
  | Some c =>
      if opt_truthy (Some c)
      then rbind (py_fromtimestamp E (to_unix_timestamp E c)) (fun dt =>
             Ok (PDict (dict_set json "created_at" (PTuple [dt]))))
      else Ok (PDict json)
  | None => Ok (PDict json)
  end.

Fixpoint upsert_chunks (document_id : string) (chunks : list DocumentChunk) : M unit :=
  match chunks with
  | [] => ret tt
  | c :: rest =>
      json <- lift (chunk_json document_id c);;
      upsert "documents" json;;
      upsert_chunks document_id rest
  end.

Fixpoint upsert_documents (chunks : list (string * list DocumentChunk)) : M unit :=
  match chunks with
  | [] => ret tt
  | (document_id, document_chunks) :: rest =>
      upsert_chunks document_id document_chunks;; upsert_documents rest
  end.

(** [PgVectorDataStore._upsert] *)
Definition upsert_ (chunks : list (string * list DocumentChunk)) : M (list string) :=
  upsert_documents chunks;;
  ret (map fst chunks).

(** [if field: params[key] = value(field)] for an [Optional[str]] field. *)
Definition set_param (params : list (string * pyval)) (key : string) (o : option string)
    (value : string -> pyval) : list (string * pyval) :=
  match o with
  | Some d => if opt_truthy (Some d) then dict_set params key (value d) else params
  | None => params
  end.

(** [datetime.fromtimestamp(to_unix_timestamp(d))] *)
Definition date_param (d : string) : result pyval := py_fromtimestamp E (to_unix_timestamp E d).

(** [if field: params[key] = datetime.fromtimestamp(...)], which may raise. *)
Definition set_date_param (params : list (string * pyval)) (key : string) (o : option string)
  : result (list (string * pyval)) :=
  match o with
  | Some d =>
      if opt_truthy (Some d)
      then rbind (date_param d) (fun v => Ok (dict_set params key v))
      else Ok params
  | None => Ok params
  end.

(** The filter part of the [params] of [_query]: one [if] per field. *)
Definition query_filter_params (filter : DocumentMetadataFilter)
    (params : list (string * pyval)) : result (list (string * pyval)) :=
  let params := set_param params "in_document_id" (f_document_id filter) PStr in
  let params := match f_source filter with
                | Some s => dict_set params "in_source" (PStr (Source_value s))
                | None => params end in
  let params := set_param params "in_source_id" (f_source_id filter) PStr in
  let params := set_param params "in_author" (f_author filter) PStr in
  rbind (set_date_param params "in_start_date" (f_start_date filter)) (fun params =>
  set_date_param params "in_end_date" (f_end_date filter)).

(** The [params] of [_query] for one query. *)
Definition query_params (query : QueryWithEmbedding) : result (list (string * pyval)) :=
  let params := [("in_embedding", PList (q_embedding query))] in
  let params := match q_top_k query with
                | Some k => if negb (Z.eqb k 0) then dict_set params "in_match_count" (PNum k) else params
                | None => params end in
  match q_filter query with
  | Some f => query_filter_params f params
  | None => Ok params
  end.

(** The body of the [for query in queries] loop of [_query]. *)
Definition query_one (query : QueryWithEmbedding) : M QueryResult :=
  params <- lift (query_params query);;
  py_try (data <- rpc "match_page_sections" (PDict params);;
          rows <- lift (py_iter data);;
          results <- lift (rows_to_chunks rows);;
          ret {| qr_query := q_query query; qr_results := results |})
         (fun e => log_error e;;
                   ret {| qr_query := q_query query; qr_results := [] |}).

(** [PgVectorDataStore._query] *)
Fixpoint query_ (queries : list QueryWithEmbedding) : M (list QueryResult) :=
  match queries with
  | [] => ret []
  | q :: rest => r <- query_one q;; rs <- query_ rest;; ret (r :: rs)
  end.

(** [PgVectorDataStore.delete]; [if ids:] is false for [None] and [[]], a
    pydantic filter object is always true. *)
Definition delete (ids : option (list string)) (filter : option DocumentMetadataFilter)
    (delete_all : option bool) : M bool :=
  if match delete_all with Some true => true | _ => false end then
    py_try (delete_like "documents" "document_id" "%";; ret true) (fun _ => ret false)
  else match ids with
  | Some ((_ :: _) as l) =>
      py_try (delete_in "documents" "document_id" l;; ret true) (fun _ => ret false)
  | _ =>
      match filter with
      | Some f => py_try (delete_by_filters "documents" f;; ret true) (fun _ => ret false)
      | None => ret true
      end
  end.

(** [PgVectorDataStore.create_command]. The id is assigned to the caller's
    object ([command.id = ...]), so the updated object is returned along
    with the id. *)
Definition create_command (command : CommandWithContent) : M (string * CommandWithContent) :=
  let command := set_cwc_id (Some (uuid4 E)) command in
  upsert "commands" (command_with_content_dict command);;
  ret (uuid4 E, command).

(** [PgVectorDataStore.get_command] *)
Definition get_command (command_id : string) : M (option Command) :=
  data <- get_by_id "commands" command_id (Some Command_fields);;
  if py_truthy data then
    row <- lift (py_getitem_idx data 0);;
    c <- lift (command_of_row row);;
    ret (Some c)
  else ret None.

(** [PgVectorDataStore.update_command] *)
Definition update_command (command : CommandWithContent) : M bool :=
  update "commands" (command_with_content_dict command);;
  ret true.

End PgVectorDataStore.

(** ** The [/commands] endpoint (local_server/main.py) *)

Inductive response :=
| CommandResponse (id : string) (errors : option string)
| HTTPException (status_code : Z).

Definition abandon_message : string :=
  "Command was abandoned due to timeout. Check Obsidian connection".

Section Endpoint.
Context (E : Env) `{PGClient}.

(** The [while True] polling loop, with [fuel] bounding its iterations. *)
Fixpoint poll_loop (fuel : nat) (id : string) (request_command : CommandWithContent)
    (start_time : Z) : M response :=
  match fuel with
  | O => raise OutOfFuel
  | S fuel' =>
      command <- get_command E id;;
      match command with
      | None => raise (AttributeError "status")
      | Some command =>
          if CommandStatus_eqb (cmd_status command) COMPLETED then
            ret (CommandResponse id None)
          else if CommandStatus_eqb (cmd_status command) ERROR then
            ret (CommandResponse id (cmd_errors command))
          else
            now <- time;;
            if Z.gtb (now - start_time) 20 then
              update_command (set_cwc_status ABANDONED request_command);;
              ret (CommandResponse id (Some abandon_message))
            else
              sleep 5;;
              poll_loop fuel' id request_command start_time
      end
  end.

(** [create_command] of main.py. *)
Definition create_command_endpoint (fuel : nat) (request_command : CommandWithContent) : M response :=
  py_try (r <- create_command E request_command;;
          let '(id, request_command) := r in
          start_time <- time;;
          poll_loop fuel id request_command start_time)
         (fun e => log_error e;; ret (HTTPException 500)).

End Endpoint.

(** [get_datastore()] only supports ["supabase"]: the server's datastore is
    [SupabaseDataStore], i.e. [PgVectorDataStore] over [SupabaseClient]. *)
Definition server_create_command (E : Env) (fuel : nat) (request_command : CommandWithContent)
  : M response :=
  @create_command_endpoint E (SupabaseClient E) fuel request_command.

(** ** Vocabulary of the polling protocol *)

(** The backend call made by [get_command(id)] on the Supabase client. *)
Definition get_call (id : string) : call :=
  CSelect "commands" (String.concat "," Command_fields) id.

(** The [k]-th backend call, a [get_command(id)], fetches [c]. *)
Definition fetched (E : Env) (k : nat) (id : string) (c : Command) : Prop :=
  exists r rs, respond E k (get_call id) = ROk (PList (r :: rs))
               /\ command_of_row E r = Ok c.

Definition terminal (s : CommandStatus) : bool :=
  CommandStatus_eqb s COMPLETED || CommandStatus_eqb s ERROR.

(** [n] polls that each end in [asyncio.sleep(5)]. *)
Definition poll_rounds (id : string) (n : nat) : list event :=
  concat (repeat [ECall (get_call id); ESleep 5] n).

(** The world after one backend call [c]. *)
Definition after_call (E : Env) (w : world) (c : call) : world :=
  mkWorld (S (w_calls w)) (w_clock w + latency E (w_calls w))%Z
          (w_trace w ++ [ECall c])%list (w_log w).

(** The world after one poll followed by the sleep. *)
Definition round_world (E : Env) (id : string) (w : world) : world :=
  mkWorld (S (w_calls w)) (w_clock w + latency E (w_calls w) + 5)%Z
          (w_trace w ++ [ECall (get_call id); ESleep 5])%list (w_log w).

Fixpoint rounds_world (E : Env) (id : string) (n : nat) (w : world) : world :=
  match n with
  | O => w
  | S n' => rounds_world E id n' (round_world E id w)
  end.

(** Total latency of the calls [k0 .. k0 + n - 1]. *)
Fixpoint lat_sum (E : Env) (k0 n : nat) : Z :=
  match n with
  | O => 0%Z
  | S n' => (lat_sum E k0 n' + latency E (k0 + n'))%Z
  end.

(** [time.time() - start_time] at the deadline check of the [j]-th poll
    (from 0) when the first poll is backend call [k0]. *)
Definition poll_elapsed (E : Env) (k0 j : nat) : Z :=
  (lat_sum E k0 (S j) + 5 * Z.of_nat j)%Z.



(** ** Vocabulary of parameters and predicates *)

(** The value of an [Optional[str]] field when it is truthy. *)
Definition present_str (o : option string) : option string :=
  match o with
  | Some d => if String.eqb d "" then None else Some d
  | None => None
  end.

(** [d.get(key)] on a dict given by its items. *)
Definition lookup_param (kvs : list (string * pyval)) (key : string) : option pyval :=
  option_map snd (find (fun kv => String.eqb (fst kv) key) kvs).

(** A field of the query's filter when the filter exists and the field is truthy. *)
Definition filter_field (q : QueryWithEmbedding) (get : DocumentMetadataFilter -> option string)
  : option string :=
  match q_filter q with Some f => present_str (get f) | None => None end.

(** The names [_query] may use. *)
Definition query_param_names : list string :=
  ["in_embedding"; "in_match_count"; "in_document_id"; "in_source"; "in_source_id";
   "in_author"; "in_start_date"; "in_end_date"].

Definition pred_col (p : pred) : string :=
  match p with PEq c _ | PGte c _ | PLte c _ => c end.

Definition preds_on (col : string) (preds : list pred) : list pred :=
  filter (fun p => String.eqb (pred_col p) col) preds.

Definition opt_list {A B} (f : A -> B) (o : option A) : list B :=
  match o with Some a => [f a] | None => [] end.

(** The world after [logger.error(e)]. *)
Definition log_world (w : world) (e : exc) : world :=
  mkWorld (w_calls w) (w_clock w) (w_trace w) (w_log w ++ [LError e])%list.

Definition rpc_call (p : pyval) : call := CRpc "match_page_sections" p.

(** The result [_query] records for a query whose similarity call got [r]. *)
Definition reply_results (E : Env) (r : reply) : list DocumentChunkWithScore :=
  match r with
  | RFail _ => []
  | ROk data => match rbind (py_iter data) (rows_to_chunks E) with
                | Ok cs => cs
                | Raise _ => []
                end
  end.

(** The datastore over the Supabase client. *)
Definition server_upsert (E : Env) (chunks : list (string * list DocumentChunk))
  : M (list string) :=
  @upsert_ E (SupabaseClient E) chunks.

Definition server_delete (E : Env) (ids : option (list string))
    (filter : option DocumentMetadataFilter) (delete_all : option bool) : M bool :=
  @delete (SupabaseClient E) ids filter delete_all.

(** The entries the adapter keeps of a dict, one by one. *)
Fixpoint conv_entries (kvs : list (string * pyval)) : list (string * pyval) :=
  match kvs with
  | [] => []
  | (k, v) :: r =>
      if is_PNone v then conv_entries r
      else (k, convert_object_to_serializable_json v) :: conv_entries r
  end.

(** A write call whose transport error, if any, is logged and suppressed. *)
Definition write_outcome (E : Env) (w : world) (c : call) : result unit * world :=
  match respond E (w_calls w) c with
  | RFail m => (Ok tt, log_world (after_call E w c) (TransportError m))
  | ROk _ => (Ok tt, after_call E w c)
  end.

(** From [w] to [w']: the calls [cs] were made in order, the log only grew,
    and each failed call of [cs] left its error in the log. *)
Definition writes_logged (E : Env) (w : world) (cs : list call) (w' : world) : Prop :=
  w_trace w' = (w_trace w ++ map ECall cs)%list /\
  w_calls w' = w_calls w + length cs /\
  (exists l, w_log w' = (w_log w ++ l)%list) /\
  forall i c m, nth_error cs i = Some c -> respond E (w_calls w + i) c = RFail m ->
                In (LError (TransportError m)) (w_log w').

Definition is_document_upsert (c : call) : bool :=
  match c with CUpsert "documents" _ => true | _ => false end.

Definition call_ok (r : reply) : bool :=
  match r with RFail _ => false | ROk _ => true end.

Definition is_scalar (v : pyval) : bool :=
  match v with PBool _ | PNum _ | PStr _ => true | _ => false end.

(** A value the adapter leaves as it is: not [None], a dict, a list or an
    enum member. *)
Definition is_atom (v : pyval) : bool :=
  match v with PNone | PDict _ | PList _ | PEnum _ _ => false | _ => true end.

(** Every enum member reached through dicts and lists has an atomic value
    (a [str], number, [bool], [datetime] or tuple, as the enums of the
    models have); the contents of tuples are not inspected. *)
Fixpoint enum_values_atomic (v : pyval) : bool :=
  match v with
  | PEnum _ x => is_atom x
  | PList l => forallb enum_values_atomic l
  | PDict kvs =>
      (fix go (kvs : list (string * pyval)) : bool :=
         match kvs with [] => true | (_, x) :: r => enum_values_atomic x && go r end) kvs
  | _ => true
  end.

(** No enum member and no [None]-valued field in any dict, at any depth
    reached through dicts and lists (tuples are not looked into). *)
Fixpoint serialized (v : pyval) : bool :=
  match v with
  | PEnum _ _ => false
  | PTuple _ => true
  | PList l => forallb serialized l
  | PDict kvs =>
      (fix go (kvs : list (string * pyval)) : bool :=
         match kvs with
         | [] => true
         | (_, x) :: r => negb (is_PNone x) && serialized x && go r
         end) kvs
  | _ => true
  end.

(** ** Sample inputs *)

(** [datetime.fromtimestamp] on a host whose local time is UTC. *)
Definition utc_fromtimestamp_ok (t : Z) : bool :=
  (-62135596800 <=? t)%Z && (t <=? 253402300799)%Z.

Definition world0 : world := mkWorld 0 0%Z [] [].

(** A row of the [commands] table for the command ["u"]. *)
Definition command_row (status : string) : pyval :=
  PDict [("id", PStr "u"); ("status", PStr status); ("errors", PNone);
         ("created_at", PNone); ("updated_at", PNone)].

(** A backend whose selects return [row] and whose other calls all succeed
    or all fail; no latency. *)
Definition sample_env (row : pyval) (fail : bool) : Env := {|
  respond := fun _ c =>
    match c with
    | CSelect _ _ _ => ROk (PList [row])
    | _ => if fail then RFail "connection refused" else ROk (PList [])
    end;
  latency := fun _ => 0%Z;
  uuid4 := "u";
  isoformat := fun _ => "2023-01-01T00:00:00";
  to_unix_timestamp := fun _ => 1672531200%Z;
  fromtimestamp_ok := utc_fromtimestamp_ok;
  str_of_num := fun _ => "0";
  float_of_str := fun _ => None |}.

Definition pending_env : Env := sample_env (command_row "NEW") false.
Definition completed_env : Env := sample_env (command_row "COMPLETED") false.
Definition failing_env : Env := sample_env (command_row "NEW") true.

Definition sample_command : CommandWithContent := {|
  cwc_id := None; cwc_status := NEW; cwc_errors := None;
  cwc_created_at := None; cwc_updated_at := None; cwc_type := CREATE_NOTE;
  cwc_content := {| cc_text := "note";
                    cc_metadata := {| md_source := None; md_source_id := None; md_url := None;
                                      md_created_at := None; md_author := None |} |} |}.

Definition sample_chunk : DocumentChunk := {|
  chunk_id := Some "c1"; chunk_text := "text";
  chunk_metadata := {| cm_source := Some FILE; cm_source_id := None; cm_url := None;
                       cm_created_at := Some "2023-01-01"; cm_author := None;
                       cm_document_id := Some "doc" |};
  chunk_embedding := Some [PNum 1] |}.

Definition make_filter (document_id author start_date : option string) : DocumentMetadataFilter := {|
  f_document_id := document_id; f_source := Some EMAIL; f_source_id := None;
  f_author := author; f_start_date := start_date; f_end_date := None |}.

Definition sample_query (f : DocumentMetadataFilter) : QueryWithEmbedding := {|
  q_query := "q"; q_filter := Some f; q_top_k := Some 3%Z; q_embedding := [PNum 1] |}.

(** The [Command] fields of a [CommandWithContent]. *)
Definition command_part (c : CommandWithContent) : Command := {|
  cmd_id := cwc_id c; cmd_status := cwc_status c; cmd_errors := cwc_errors c;
  cmd_created_at := cwc_created_at c; cmd_updated_at := cwc_updated_at c |}.

(** A backend whose calls all succeed and whose selects find no row. *)
Definition no_rows_env : Env := {|
  respond := fun _ _ => ROk (PList []);
  latency := fun _ => 0%Z;
  uuid4 := "u";
  isoformat := fun _ => "2023-01-01T00:00:00";
  to_unix_timestamp := fun _ => 1672531200%Z;
  fromtimestamp_ok := utc_fromtimestamp_ok;
  str_of_num := fun _ => "0";
  float_of_str := fun _ => None |}.

(** The keys [_query] reads from a row. *)
Definition row_keys : list string :=
  ["id"; "content"; "similarity"; "source"; "source_id"; "document_id"; "url";
   "created_at"; "author"].

(** [sample_command] with [created_at] already set. *)
Definition dated_command : CommandWithContent := {|
  cwc_id := None; cwc_status := NEW; cwc_errors := None;
  cwc_created_at := Some "2023-01-01"; cwc_updated_at := None; cwc_type := CREATE_NOTE;
  cwc_content := cwc_content sample_command |}.

(** A filter whose fields are all null or empty. *)
Definition blank_filter : DocumentMetadataFilter := {|
  f_document_id := Some ""; f_source := None; f_source_id := None;
  f_author := Some ""; f_start_date := Some ""; f_end_date := None |}.

(** A host whose date service maps one far date past the end of year 9999
    (in UTC) and every other date to the same instant. *)
Definition far_date_env : Env := {|
  respond := respond pending_env;
  latency := fun _ => 0%Z;
  uuid4 := "u";
  isoformat := fun _ => "2023-01-01T00:00:00";
  to_unix_timestamp := fun s =>
    if String.eqb s "9999-12-31T23:59:59-12:00" then 253402343999%Z else 1672531200%Z;
  fromtimestamp_ok := utc_fromtimestamp_ok;
  str_of_num := fun _ => "0";
  float_of_str := fun _ => None |}.

(** A truthy date field that [datetime.fromtimestamp] accepts, or no truthy
    date. *)
Definition date_converts (E : Env) (o : option string) : bool :=
  match present_str o with
  | Some d => fromtimestamp_ok E (to_unix_timestamp E d)
  | None => true
  end.

(** Every truthy date of the query's filter converts. *)
Definition query_dates_convert (E : Env) (q : QueryWithEmbedding) : bool :=
  match q_filter q with
  | Some f => date_converts E (f_start_date f) && date_converts E (f_end_date f)
  | None => true
  end.

Definition chunk_date_converts (E : Env) (c : DocumentChunk) : bool :=
  date_converts E (cm_created_at (chunk_metadata c)).

(** The [params] of [_query] before its two date steps. *)
Definition params_before_dates (q : QueryWithEmbedding) : list (string * pyval) :=
  let params := [("in_embedding", PList (q_embedding q))] in
  let params := match q_top_k q with
                | Some k => if negb (Z.eqb k 0) then dict_set params "in_match_count" (PNum k) else params
                | None => params end in
  match q_filter q with
  | Some f =>
      let params := set_param params "in_document_id" (f_document_id f) PStr in
      let params := match f_source f with
                    | Some s => dict_set params "in_source" (PStr (Source_value s))
                    | None => params end in
      let params := set_param params "in_source_id" (f_source_id f) PStr in
      set_param params "in_author" (f_author f) PStr
  | None => params
  end.

(** A result that is not the fuel running out. *)
Definition no_fuel {A} (r : result A) : Prop :=
  match r with Raise OutOfFuel => False | _ => True end.

(** * Proofs *)

Section Polling.
Context (E : Env).

#[local] Abbreviation loop := (@poll_loop E (SupabaseClient E)).

Lemma get_command_fetched (id : string) (w : world) (c : Command) :
  fetched E (w_calls w) id c ->
  @get_command E (SupabaseClient E) id w = (Ok (Some c), after_call E w (get_call id)).
Proof.
  intros (r & rs & Hr & Hc).
  unfold get_command, bind, lift; cbn.
  unfold supabase_get_by_id, execute; cbn.
  unfold get_call, Command_fields in Hr; cbn in Hr; rewrite Hr; cbn.
  rewrite Hc; reflexivity.
Qed.

Lemma terminal_false (s : CommandStatus) :
  terminal s = false ->
  CommandStatus_eqb s COMPLETED = false /\ CommandStatus_eqb s ERROR = false.
Proof. unfold terminal; apply orb_false_iff. Qed.

Lemma poll_quiet (f : nat) (id : string) (rc : CommandWithContent) (st : Z)
    (w : world) (c : Command) :
  fetched E (w_calls w) id c -> terminal (cmd_status c) = false ->
  (w_clock w + latency E (w_calls w) - st <= 20)%Z ->
  loop (S f) id rc st w = loop f id rc st (round_world E id w).
Proof.
  intros Hf Ht Hle.
  destruct (terminal_false _ Ht) as [Hc He].
  cbn [poll_loop]; unfold bind at 1.
  rewrite (get_command_fetched id w c Hf).
  rewrite Hc, He; unfold bind, time; cbn.
  replace (w_clock w + latency E (w_calls w) - st >? 20)%Z with false
    by (symmetry; rewrite Z.gtb_ltb; apply Z.ltb_ge; lia).
  unfold round_world, after_call; cbn; rewrite <- app_assoc; reflexivity.
Qed.




Lemma poll_status_terminal (f : nat) (id : string) (rc : CommandWithContent) (st : Z)
    (w : world) (c : Command) :
  fetched E (w_calls w) id c ->
  (cmd_status c = COMPLETED ->
   loop (S f) id rc st w = (Ok (CommandResponse id None), after_call E w (get_call id))) /\
  (cmd_status c = ERROR ->
   loop (S f) id rc st w = (Ok (CommandResponse id (cmd_errors c)), after_call E w (get_call id))).
Proof.
  intros Hf; split; intros Hs; cbn [poll_loop]; unfold bind at 1;
    rewrite (get_command_fetched id w c Hf); cbv beta iota; rewrite Hs; reflexivity.
Qed.

Lemma lat_sum_shift (k n : nat) :
  lat_sum E k (S n) = (latency E k + lat_sum E (S k) n)%Z.
Proof.
  induction n as [|n IH].
  - cbn; rewrite Nat.add_0_r; lia.
  - change (lat_sum E k (S (S n))) with (lat_sum E k (S n) + latency E (k + S n))%Z.
    rewrite IH; cbn [lat_sum].
    replace (k + S n)%nat with (S k + n)%nat by lia; lia.
Qed.

Lemma rounds_world_calls (id : string) (n : nat) (w : world) :
  w_calls (rounds_world E id n w) = (w_calls w + n)%nat.
Proof.
  revert w; induction n as [|n IH]; intros w; cbn [rounds_world].
  - lia.
  - rewrite IH; cbn; lia.
Qed.

Lemma rounds_world_clock (id : string) (n : nat) (w : world) :
  w_clock (rounds_world E id n w) = (w_clock w + lat_sum E (w_calls w) n + 5 * Z.of_nat n)%Z.
Proof.
  revert w; induction n as [|n IH]; intros w; cbn [rounds_world].
  - cbn; lia.
  - rewrite IH, lat_sum_shift; cbn [round_world w_clock w_calls]; lia.
Qed.

Lemma rounds_world_trace (id : string) (n : nat) (w : world) :
  w_trace (rounds_world E id n w) = (w_trace w ++ poll_rounds id n)%list.
Proof.
  revert w; induction n as [|n IH]; intros w; cbn [rounds_world].
  - rewrite app_nil_r; reflexivity.
  - rewrite IH; cbn [round_world w_trace]; rewrite <- app_assoc; reflexivity.
Qed.

(** [n] quiet rounds under the deadline consume [n] units of fuel. *)
Lemma loop_rounds (n f : nat) (id : string) (rc : CommandWithContent) (st : Z) (w : world) :
  (forall j, (j < n)%nat ->
     exists c, fetched E (w_calls w + j) id c /\ terminal (cmd_status c) = false /\
       (w_clock (rounds_world E id j w) + latency E (w_calls w + j) - st <= 20)%Z) ->
  loop (n + f) id rc st w = loop f id rc st (rounds_world E id n w).
Proof.
  revert w; induction n as [|n IH]; intros w Hq.
  - reflexivity.
  - destruct (Hq 0%nat ltac:(lia)) as (c & Hf & Ht & Hle).
    rewrite Nat.add_0_r in Hf, Hle.
    change (S n + f)%nat with (S (n + f)).
    rewrite (poll_quiet (n + f) id rc st w c Hf Ht Hle).
    apply IH; intros j Hj.
    destruct (Hq (S j) ltac:(lia)) as (c' & Hf' & Ht' & Hle').
    exists c'; cbn [round_world w_calls].
    replace (S (w_calls w) + j)%nat with (w_calls w + S j)%nat by lia.
    auto.
Qed.


Lemma terminal_iff (s : CommandStatus) :
  terminal s = false <-> s <> COMPLETED /\ s <> ERROR.
Proof. destruct s; cbn; intuition congruence. Qed.

Lemma check_elapsed (id : string) (j : nat) (w : world) :
  (w_clock (rounds_world E id j w) + latency E (w_calls w + j) - w_clock w)%Z =
  poll_elapsed E (w_calls w) j.
Proof. rewrite rounds_world_clock; unfold poll_elapsed; cbn [lat_sum]; lia. Qed.


Lemma endpoint_after_create (fuel : nat) (cmd : CommandWithContent) (w : world) (id : string)
    (cmd1 : CommandWithContent) (w1 : world) (r : response) (w' : world) :
  @create_command E (SupabaseClient E) cmd w = (Ok (id, cmd1), w1) ->
  loop fuel id cmd1 (w_clock w1) w1 = (Ok r, w') ->
  server_create_command E fuel cmd w = (Ok r, w').
Proof.
  intros Hc Hl.
  unfold server_create_command, create_command_endpoint, py_try.
  unfold bind at 1; rewrite Hc; cbv beta iota.
  unfold bind, time; cbv beta iota.
  rewrite Hl; reflexivity.
Qed.


Lemma poll_rounds_events (id : string) (n : nat) (e : event) :
  In e (poll_rounds id n) -> e = ECall (get_call id) \/ e = ESleep 5.
Proof.
  induction n as [|n IH]; cbn; [tauto|].
  intros [H|[H|H]]; auto.
Qed.

End Polling.


(** C4: at the first poll that fetches COMPLETED the endpoint returns the
    id with no error, and at the first poll that fetches ERROR it returns
    the command's recorded error message; either way the trace after the
    creation holds only the polls and sleeps up to that poll: no update
    and no later poll. *)
Theorem create_command_terminal_status (E : Env) (fuel : nat)
    (cmd : CommandWithContent) (w : world) (id : string)
    (cmd1 : CommandWithContent) (w1 : world) (n : nat) (c : Command) :
  @create_command E (SupabaseClient E) cmd w = (Ok (id, cmd1), w1) ->
  (forall j, (j < n)%nat ->
     exists cj, fetched E (w_calls w1 + j) id cj /\
       cmd_status cj <> COMPLETED /\ cmd_status cj <> ERROR /\
       (poll_elapsed E (w_calls w1) j <= 20)%Z) ->
  fetched E (w_calls w1 + n) id c ->
  (n < fuel)%nat ->
  (cmd_status c = COMPLETED ->
   exists w', server_create_command E fuel cmd w = (Ok (CommandResponse id None), w') /\
              w_trace w' = (w_trace w1 ++ poll_rounds id n ++ [ECall (get_call id)])%list) /\
  (cmd_status c = ERROR ->
   exists w', server_create_command E fuel cmd w = (Ok (CommandResponse id (cmd_errors c)), w') /\
              w_trace w' = (w_trace w1 ++ poll_rounds id n ++ [ECall (get_call id)])%list) /\
  (forall e, In e (poll_rounds id n ++ [ECall (get_call id)])%list ->
             e = ECall (get_call id) \/ e = ESleep 5).
Proof.
  intros Hc Hq Hf Hfuel.
  assert (Hrounds : @poll_loop E (SupabaseClient E) fuel id cmd1 (w_clock w1) w1 =
                    @poll_loop E (SupabaseClient E) (S (fuel - S n)) id cmd1 (w_clock w1)
                               (rounds_world E id n w1)).
  { replace fuel with (n + S (fuel - S n))%nat at 1 by lia.
    apply loop_rounds; intros j Hj.
    destruct (Hq j Hj) as (cj & Hfj & H1 & H2 & Hle).
    exists cj; split; [exact Hfj|]; split; [apply terminal_iff; auto|].
    rewrite check_elapsed; exact Hle. }
  rewrite <- (rounds_world_calls E id n w1) in Hf.
  destruct (poll_status_terminal E (fuel - S n) id cmd1 (w_clock w1) _ c Hf) as [Hcomp Herr].
  assert (Htr : w_trace (after_call E (rounds_world E id n w1) (get_call id)) =
                (w_trace w1 ++ poll_rounds id n ++ [ECall (get_call id)])%list).
  { cbn [after_call w_trace]; rewrite rounds_world_trace, <- app_assoc; reflexivity. }
  split; [|split].
  - intros Hs; eexists; split; [|exact Htr].
    apply (endpoint_after_create E fuel cmd w id cmd1 w1 _ _ Hc).
    rewrite Hrounds; exact (Hcomp Hs).
  - intros Hs; eexists; split; [|exact Htr].
    apply (endpoint_after_create E fuel cmd w id cmd1 w1 _ _ Hc).
    rewrite Hrounds; exact (Herr Hs).
  - intros e He; apply in_app_or in He; destruct He as [He|[He|[]]].
    + exact (poll_rounds_events id n e He).
    + left; symmetry; exact He.
Qed.

Section Params.
Context (E : Env).

Lemma lookup_dict_set (kvs : list (string * pyval)) (k k' : string) (v : pyval) :
  lookup_param (dict_set kvs k v) k' =
  if String.eqb k' k then Some v else lookup_param kvs k'.
Proof.
  unfold lookup_param; induction kvs as [|[k0 v0] r IH]; cbn.
  - destruct (String.eqb_spec k k'), (String.eqb_spec k' k); subst; cbn; congruence.
  - destruct (String.eqb_spec k0 k) as [->|Hne]; cbn.
    + destruct (String.eqb_spec k k'), (String.eqb_spec k' k); subst; cbn; congruence.
    + destruct (String.eqb_spec k0 k'); cbn; [|exact IH].
      subst; destruct (String.eqb_spec k' k); cbn; congruence.
Qed.

Lemma lookup_set_param (params : list (string * pyval)) (key : string) (o : option string)
    (value : string -> pyval) (k : string) :
  lookup_param (set_param params key o value) k =
  if String.eqb k key
  then match present_str o with Some d => Some (value d) | None => lookup_param params k end
  else lookup_param params k.
Proof.
  unfold set_param, present_str, opt_truthy; destruct o as [d|].
  - destruct (String.eqb d ""); cbn.
    + destruct (String.eqb k key); reflexivity.
    + apply lookup_dict_set.
  - destruct (String.eqb k key); reflexivity.
Qed.

Lemma py_getitem_dict (kvs : list (string * pyval)) (k : string) :
  py_getitem_key (PDict kvs) k =
  match lookup_param kvs k with Some v => Ok v | None => Raise (KeyError k) end.
Proof.
  unfold py_getitem_key, lookup_param.
  destruct (find _ kvs) as [[k0 v0]|]; reflexivity.
Qed.

Lemma py_contains_dict (kvs : list (string * pyval)) (k : string) :
  py_contains (PDict kvs) k = match lookup_param kvs k with Some _ => true | None => false end.
Proof.
  unfold py_contains, lookup_param.
  destruct (find (fun kv => String.eqb (fst kv) k) kvs) as [[k0 v0]|] eqn:F; cbn.
  - apply existsb_exists; exists (k0, v0); split.
    + exact (proj1 (find_some _ _ F)).
    + exact (proj2 (find_some _ _ F)).
  - apply Bool.not_true_iff_false; intros Hx.
    apply existsb_exists in Hx; destruct Hx as (kv & Hin & Hk).
    exact (Bool.diff_true_false (eq_trans (eq_sym Hk) (find_none _ _ F kv Hin))).
Qed.

Lemma lookup_set_param_other (params : list (string * pyval)) (key : string)
    (o : option string) (value : string -> pyval) (k : string) :
  k <> key -> lookup_param (set_param params key o value) k = lookup_param params k.
Proof.
  intros Hne; rewrite lookup_set_param.
  destruct (String.eqb_spec k key); [contradiction | reflexivity].
Qed.

Lemma lookup_set_param_same (params : list (string * pyval)) (key : string)
    (o : option string) (value : string -> pyval) :
  lookup_param (set_param params key o value) key =
  match present_str o with Some d => Some (value d) | None => lookup_param params key end.
Proof. rewrite lookup_set_param, String.eqb_refl; reflexivity. Qed.

(** The [in_source] and [in_match_count] steps. *)
Lemma lookup_opt_set_other {A} (params : list (string * pyval)) (key : string)
    (o : option A) (b : A -> bool) (value : A -> pyval) (k : string) :
  k <> key ->
  lookup_param (match o with
                | Some a => if b a then dict_set params key (value a) else params
                | None => params end) k = lookup_param params k.
Proof.
  intros Hne; destruct o as [a|]; [destruct (b a)|]; try reflexivity.
  rewrite lookup_dict_set; destruct (String.eqb_spec k key); [contradiction | reflexivity].
Qed.

Lemma lookup_source_step (params : list (string * pyval)) (o : option Source) (k : string) :
  lookup_param (match o with
                | Some s => dict_set params "in_source" (PStr (Source_value s))
                | None => params end) k =
  if String.eqb k "in_source"
  then match o with Some s => Some (PStr (Source_value s)) | None => lookup_param params k end
  else lookup_param params k.
Proof.
  destruct o as [s|].
  - apply lookup_dict_set.
  - destruct (String.eqb k "in_source"); reflexivity.
Qed.

Ltac lookup_step :=
  first [ rewrite lookup_set_param_other by discriminate
        | rewrite lookup_set_param_same
        | rewrite lookup_source_step; cbn [String.eqb Ascii.eqb Bool.eqb]
        | rewrite (lookup_opt_set_other _ "in_match_count") by discriminate ].

Ltac solve_lookup :=
  unfold params_before_dates, filter_field;
  destruct (q_filter _) as [f|]; cbv zeta; repeat lookup_step;
  try (match goal with |- context [present_str ?o] => destruct (present_str o) end);
  try (match goal with |- context [f_source ?f] => destruct (f_source f) end);
  reflexivity.

Lemma before_document_id (q : QueryWithEmbedding) :
  lookup_param (params_before_dates q) "in_document_id" =
  option_map PStr (filter_field q f_document_id).
Proof. solve_lookup. Qed.

Lemma before_source (q : QueryWithEmbedding) :
  lookup_param (params_before_dates q) "in_source" =
  match q_filter q with
  | Some f => option_map (fun s => PStr (Source_value s)) (f_source f)
  | None => None
  end.
Proof. solve_lookup. Qed.

Lemma before_source_id (q : QueryWithEmbedding) :
  lookup_param (params_before_dates q) "in_source_id" =
  option_map PStr (filter_field q f_source_id).
Proof. solve_lookup. Qed.

Lemma before_author (q : QueryWithEmbedding) :
  lookup_param (params_before_dates q) "in_author" = option_map PStr (filter_field q f_author).
Proof. solve_lookup. Qed.

Lemma before_start_date (q : QueryWithEmbedding) :
  lookup_param (params_before_dates q) "in_start_date" = None.
Proof. solve_lookup. Qed.

Lemma before_end_date (q : QueryWithEmbedding) :
  lookup_param (params_before_dates q) "in_end_date" = None.
Proof. solve_lookup. Qed.

Lemma set_date_param_ok (params : list (string * pyval)) (key : string) (o : option string) :
  (exists p, set_date_param E params key o = Ok p) <-> date_converts E o = true.
Proof.
  unfold set_date_param, date_converts, date_param, py_fromtimestamp.
  destruct o as [d|]; cbn; [destruct (String.eqb d ""); cbn;
                             [|destruct (fromtimestamp_ok E (to_unix_timestamp E d)); cbn]|].
  all: split; [intros [p Hp]; first [reflexivity | discriminate]
              | intros Hx; first [discriminate | eexists; reflexivity]].
Qed.

Lemma set_date_param_raise (params : list (string * pyval)) (key : string) (o : option string)
    (e : exc) :
  set_date_param E params key o = Raise e -> e = ValueError "year is out of range".
Proof.
  unfold set_date_param, date_param, py_fromtimestamp.
  destruct o as [d|]; cbn; [|discriminate].
  destruct (String.eqb d ""); cbn; [discriminate|].
  destruct (fromtimestamp_ok E (to_unix_timestamp E d)); cbn; congruence.
Qed.

Lemma set_date_param_lookup (params : list (string * pyval)) (key : string) (o : option string)
    (p : list (string * pyval)) :
  set_date_param E params key o = Ok p ->
  forall k, lookup_param p k =
    if String.eqb k key
    then match present_str o with
         | Some d => Some (PDateTime (to_unix_timestamp E d))
         | None => lookup_param params k
         end
    else lookup_param params k.
Proof.
  unfold set_date_param, date_param, py_fromtimestamp.
  destruct o as [d|]; cbn.
  - destruct (String.eqb d ""); cbn.
    + intros H; injection H as <-; intros k; destruct (String.eqb k key); reflexivity.
    + destruct (fromtimestamp_ok E (to_unix_timestamp E d)); cbn; [|discriminate].
      intros H; injection H as <-; intros k; apply lookup_dict_set.
  - intros H; injection H as <-; intros k; destruct (String.eqb k key); reflexivity.
Qed.

Lemma query_params_split (q : QueryWithEmbedding) :
  query_params E q =
  match q_filter q with
  | Some f => rbind (set_date_param E (params_before_dates q) "in_start_date" (f_start_date f))
                    (fun p => set_date_param E p "in_end_date" (f_end_date f))
  | None => Ok (params_before_dates q)
  end.
Proof.
  unfold query_params, query_filter_params, params_before_dates.
  destruct (q_filter q); reflexivity.
Qed.

Lemma query_params_ok_iff (q : QueryWithEmbedding) :
  (exists kvs, query_params E q = Ok kvs) <-> query_dates_convert E q = true.
Proof.
  rewrite query_params_split; unfold query_dates_convert.
  destruct (q_filter q) as [f|]; [|split; eauto].
  destruct (set_date_param E (params_before_dates q) "in_start_date" (f_start_date f))
    as [p1|e1] eqn:H1; cbn [rbind].
  - rewrite (proj1 (set_date_param_ok _ _ _) (ex_intro _ p1 H1)), andb_true_l.
    apply set_date_param_ok.
  - destruct (date_converts E (f_start_date f)) eqn:D.
    + apply (set_date_param_ok (params_before_dates q) "in_start_date") in D as [p Hp].
      congruence.
    + cbn; split; [intros [kvs Hk]; discriminate | discriminate].
Qed.

Lemma query_params_raise (q : QueryWithEmbedding) (e : exc) :
  query_params E q = Raise e -> e = ValueError "year is out of range".
Proof.
  rewrite query_params_split; destruct (q_filter q) as [f|]; [|discriminate].
  destruct (set_date_param E (params_before_dates q) "in_start_date" (f_start_date f))
    as [p1|e1] eqn:H1; cbn [rbind].
  - apply set_date_param_raise.
  - intros H; injection H as <-; exact (set_date_param_raise _ _ _ _ H1).
Qed.

Lemma query_params_lookup (q : QueryWithEmbedding) (kvs : list (string * pyval)) :
  query_params E q = Ok kvs ->
  forall k, lookup_param kvs k =
    if String.eqb k "in_end_date"
    then option_map (fun d => PDateTime (to_unix_timestamp E d)) (filter_field q f_end_date)
    else if String.eqb k "in_start_date"
    then option_map (fun d => PDateTime (to_unix_timestamp E d)) (filter_field q f_start_date)
    else lookup_param (params_before_dates q) k.
Proof.
  pose proof (before_start_date q) as Bs; pose proof (before_end_date q) as Be.
  rewrite query_params_split; unfold filter_field in *.
  destruct (q_filter q) as [f|].
  - destruct (set_date_param E (params_before_dates q) "in_start_date" (f_start_date f))
      as [p1|e1] eqn:H1; cbn [rbind]; [|discriminate].
    intros H2 k; rewrite (set_date_param_lookup _ _ _ _ H2 k), (set_date_param_lookup _ _ _ _ H1 k).
    destruct (String.eqb k "in_end_date") eqn:Ke, (String.eqb k "in_start_date") eqn:Ks.
    + apply String.eqb_eq in Ke, Ks; congruence.
    + apply String.eqb_eq in Ke; subst k; rewrite Be.
      destruct (present_str (f_end_date f)); reflexivity.
    + apply String.eqb_eq in Ks; subst k; rewrite Bs.
      destruct (present_str (f_start_date f)); reflexivity.
    + reflexivity.
  - intros H; injection H as <-; intros k.
    destruct (String.eqb k "in_end_date") eqn:Ke, (String.eqb k "in_start_date") eqn:Ks;
      try reflexivity;
      match goal with
      | Ke : String.eqb k "in_end_date" = true |- _ => apply String.eqb_eq in Ke; subst k; exact Be
      | Ks : String.eqb k "in_start_date" = true |- _ => apply String.eqb_eq in Ks; subst k; exact Bs
      end.
Qed.

Ltac other_param H :=
  rewrite (query_params_lookup _ _ H); cbn [String.eqb Ascii.eqb Bool.eqb].

Lemma query_params_document_id (q : QueryWithEmbedding) (kvs : list (string * pyval)) :
  query_params E q = Ok kvs ->
  lookup_param kvs "in_document_id" = option_map PStr (filter_field q f_document_id).
Proof. intros H; other_param H; apply before_document_id. Qed.

Lemma query_params_source (q : QueryWithEmbedding) (kvs : list (string * pyval)) :
  query_params E q = Ok kvs ->
  lookup_param kvs "in_source" =
  match q_filter q with
  | Some f => option_map (fun s => PStr (Source_value s)) (f_source f)
  | None => None
  end.
Proof. intros H; other_param H; apply before_source. Qed.

Lemma query_params_source_id (q : QueryWithEmbedding) (kvs : list (string * pyval)) :
  query_params E q = Ok kvs ->
  lookup_param kvs "in_source_id" = option_map PStr (filter_field q f_source_id).
Proof. intros H; other_param H; apply before_source_id. Qed.

Lemma query_params_author (q : QueryWithEmbedding) (kvs : list (string * pyval)) :
  query_params E q = Ok kvs ->
  lookup_param kvs "in_author" = option_map PStr (filter_field q f_author).
Proof. intros H; other_param H; apply before_author. Qed.

Lemma query_params_start_date (q : QueryWithEmbedding) (kvs : list (string * pyval)) :
  query_params E q = Ok kvs ->
  lookup_param kvs "in_start_date" =
  option_map (fun d => PDateTime (to_unix_timestamp E d)) (filter_field q f_start_date).
Proof. intros H; other_param H; reflexivity. Qed.

Lemma query_params_end_date (q : QueryWithEmbedding) (kvs : list (string * pyval)) :
  query_params E q = Ok kvs ->
  lookup_param kvs "in_end_date" =
  option_map (fun d => PDateTime (to_unix_timestamp E d)) (filter_field q f_end_date).
Proof. intros H; other_param H; reflexivity. Qed.

Lemma isoformat_param_dict (kvs : list (string * pyval)) (k : string) :
  (forall v, lookup_param kvs k = Some v -> exists t, v = PDateTime t) ->
  exists kvs', (forall w, isoformat_param E (PDict kvs) k w = (Ok (PDict kvs'), w)) /\
               (forall k', k' <> k -> lookup_param kvs' k' = lookup_param kvs k').
Proof.
  intros Hdt; unfold isoformat_param; rewrite py_contains_dict.
  destruct (lookup_param kvs k) as [v|] eqn:L.
  - destruct (Hdt v eq_refl) as [t ->].
    exists (dict_set kvs k (PStr (isoformat E t))); split.
    + intros w; unfold bind, lift; rewrite py_getitem_dict, L; reflexivity.
    + intros k' Hne; rewrite lookup_dict_set.
      destruct (String.eqb_spec k' k); [contradiction | reflexivity].
  - exists kvs; split; reflexivity.
Qed.

(** The Supabase [rpc] of [_query] always reaches the backend once the
    parameters are built, with parameters that depend on the query only. *)
Lemma supabase_rpc_query (q : QueryWithEmbedding) (kvs0 : list (string * pyval)) :
  query_params E q = Ok kvs0 ->
  exists p, forall w,
    supabase_rpc E "match_page_sections" (PDict kvs0) w = execute E (rpc_call p) w.
Proof.
  intros H0.
  destruct (isoformat_param_dict kvs0 "in_start_date") as (kvs1 & H1 & Hother).
  { intros v; rewrite (query_params_start_date q kvs0 H0).
    destruct (filter_field q f_start_date); cbn; intros Hv; inversion Hv; eexists; reflexivity. }
  destruct (isoformat_param_dict kvs1 "in_end_date") as (kvs2 & H2 & _).
  { intros v; rewrite Hother by discriminate; rewrite (query_params_end_date q kvs0 H0).
    destruct (filter_field q f_end_date); cbn; intros Hv; inversion Hv; eexists; reflexivity. }
  exists (PDict kvs2); intros w.
  unfold supabase_rpc, bind; rewrite H1, H2; reflexivity.
Qed.

Lemma rbind_no_fuel {A B} (r : result A) (k : A -> result B) :
  no_fuel r -> (forall a, no_fuel (k a)) -> no_fuel (rbind r k).
Proof. destruct r as [a|e]; cbn; auto. Qed.

Lemma row_to_chunk_no_fuel (row : pyval) : no_fuel (row_to_chunk E row).
Proof.
  unfold row_to_chunk.
  repeat (apply rbind_no_fuel; [| intros ?]);
  repeat match goal with
         | |- no_fuel (py_getitem_key ?r ?k) =>
             unfold py_getitem_key; destruct r; try exact I;
             destruct (find _ _) as [[? ?]|]; exact I
         | |- no_fuel (py_float _ ?v) =>
             unfold py_float; destruct v; try exact I; destruct (float_of_str _ _); exact I
         | |- no_fuel (validate_opt_source ?v) =>
             unfold validate_opt_source; destruct v as [| | | s | ? [] | | | |]; try exact I;
             try destruct (Source_of_string _); exact I
         | |- no_fuel (validate_opt_str _ ?v) =>
             unfold validate_opt_str, validate_str; destruct v as [| | | | ? [] | | | |]; exact I
         | |- no_fuel (validate_str _ ?v) =>
             unfold validate_str; destruct v as [| | | | ? [] | | | |]; exact I
         | |- no_fuel (Ok _) => exact I
         end.
Qed.

Lemma rows_to_chunks_no_fuel (data : pyval) :
  no_fuel (rbind (py_iter data) (rows_to_chunks E)).
Proof.
  apply rbind_no_fuel; [destruct data; exact I|].
  intros rows; induction rows as [|r rs IH]; cbn; [exact I|].
  apply rbind_no_fuel; [apply row_to_chunk_no_fuel|].
  intros c; apply rbind_no_fuel; [exact IH|]; intros; exact I.
Qed.

Lemma query_one_facts (q : QueryWithEmbedding) (kvs0 : list (string * pyval)) :
  query_params E q = Ok kvs0 ->
  exists p, forall w, exists w1,
    @query_one E (SupabaseClient E) q w =
      (Ok {| qr_query := q_query q;
             qr_results := reply_results E (respond E (w_calls w) (rpc_call p)) |}, w1) /\
    w_calls w1 = S (w_calls w) /\
    w_trace w1 = (w_trace w ++ [ECall (rpc_call p)])%list /\
    (exists l, w_log w1 = (w_log w ++ l)%list) /\
    (forall m, respond E (w_calls w) (rpc_call p) = RFail m ->
               In (LError (TransportError m)) (w_log w1)).
Proof.
  intros H0; destruct (supabase_rpc_query q kvs0 H0) as [p Hp]; exists p; intros w.
  unfold query_one, bind at 1, lift; rewrite H0; cbv beta iota.
  unfold py_try, bind at 1.
  change (@rpc (SupabaseClient E)) with (supabase_rpc E).
  unfold bind at 1; rewrite Hp; unfold execute, reply_results; cbv zeta.
  pose proof (fun data => rows_to_chunks_no_fuel data) as NF.
  destruct (respond E (w_calls w) (rpc_call p)) as [m|data] eqn:R.
  - eexists; split; [reflexivity|]; cbn.
    split; [reflexivity|]; split; [reflexivity|]; split; [eexists; reflexivity|].
    intros m' Hm; inversion Hm; subst; apply in_or_app; right; left; reflexivity.
  - specialize (NF data); unfold bind, lift, ret; cbv beta iota.
    unfold rbind.
    destruct (py_iter data) as [rows|e] eqn:I; cbn in NF.
    + destruct (rows_to_chunks E rows) as [cs|e] eqn:C; cbn in NF.
      * eexists; split; [reflexivity|]; cbn.
        split; [reflexivity|]; split; [reflexivity|]; split.
        -- exists []; rewrite app_nil_r; reflexivity.
        -- intros m' Hm; discriminate.
      * destruct e; try contradiction;
          (eexists; split; [reflexivity|]; cbn;
           split; [reflexivity|]; split; [reflexivity|]; split;
           [eexists; reflexivity | intros m' Hm; discriminate]).
    + destruct e; try contradiction;
        (eexists; split; [reflexivity|]; cbn;
         split; [reflexivity|]; split; [reflexivity|]; split;
         [eexists; reflexivity | intros m' Hm; discriminate]).
Qed.

Lemma nth_error_after (A : Type) (l t : list A) (x : A) :
  nth_error (l ++ x :: t)%list (length l) = Some x.
Proof. induction l; cbn; auto. Qed.

Lemma query_one_raise (q : QueryWithEmbedding) (e : exc) (w : world) :
  query_params E q = Raise e -> @query_one E (SupabaseClient E) q w = (Raise e, w).
Proof. intros H; unfold query_one, bind, lift; rewrite H; reflexivity. Qed.

Lemma query_batch (qs : list QueryWithEmbedding) (w : world) :
  forallb (query_dates_convert E) qs = true ->
  exists rs w',
    @query_ E (SupabaseClient E) qs w = (Ok rs, w') /\
    length rs = length qs /\
    w_calls w' = w_calls w + length qs /\
    (exists t, w_trace w' = (w_trace w ++ t)%list) /\
    (exists l, w_log w' = (w_log w ++ l)%list) /\
    forall i q, nth_error qs i = Some q ->
      exists p,
        nth_error (w_trace w') (length (w_trace w) + i) = Some (ECall (rpc_call p)) /\
        nth_error rs i =
          Some {| qr_query := q_query q;
                  qr_results := reply_results E (respond E (w_calls w + i) (rpc_call p)) |} /\
        (forall m, respond E (w_calls w + i) (rpc_call p) = RFail m ->
                   In (LError (TransportError m)) (w_log w')).
Proof.
  revert w; induction qs as [|q rest IH]; intros w Hd.
  - exists [], w; repeat split; cbn; auto.
    + exists []; rewrite app_nil_r; reflexivity.
    + exists []; rewrite app_nil_r; reflexivity.
    + intros i q Hq; destruct i; discriminate.
  - cbn [forallb] in Hd; apply andb_prop in Hd as [Hd1 Hd2].
    destruct (proj2 (query_params_ok_iff q) Hd1) as [kvs0 H0].
    destruct (query_one_facts q kvs0 H0) as [p Hp].
    destruct (Hp w) as (w1 & Hq & Hc1 & Ht1 & [l1 Hl1] & Hf1).
    destruct (IH w1 Hd2) as (rs & w' & Hr & Hlen & Hc & [t Ht] & [l Hl] & Hi).
    exists ({| qr_query := q_query q;
               qr_results := reply_results E (respond E (w_calls w) (rpc_call p)) |} :: rs), w'.
    split.
    { cbn [query_]; unfold bind; rewrite Hq, Hr; reflexivity. }
    split; [cbn; congruence|].
    split; [rewrite Hc, Hc1; cbn; lia|].
    split; [exists (ECall (rpc_call p) :: t); rewrite Ht, Ht1, <- app_assoc; reflexivity|].
    split; [exists (l1 ++ l)%list; rewrite Hl, Hl1, app_assoc; reflexivity|].
    intros [|j] q' Hq'; cbn in Hq'.
    + inversion Hq'; subst q'; exists p.
      rewrite Ht, Ht1, <- app_assoc, Nat.add_0_r; cbn.
      split; [apply nth_error_after|].
      rewrite Nat.add_0_r; split; [reflexivity|].
      intros m Hm; rewrite Hl; apply in_or_app; left; auto.
    + destruct (Hi j q' Hq') as (p' & Htr & Hn & Hf).
      exists p'; rewrite Ht1, length_app in Htr; cbn in Htr.
      rewrite Hc1 in Hn, Hf.
      replace (w_calls w + S j) with (S (w_calls w) + j) by lia.
      replace (length (w_trace w) + S j) with (length (w_trace w) + 1 + j) by lia.
      auto.
Qed.

Lemma query_batch_raise (qs : list QueryWithEmbedding) (w : world) :
  existsb (fun q => negb (query_dates_convert E q)) qs = true ->
  exists w', @query_ E (SupabaseClient E) qs w = (Raise (ValueError "year is out of range"), w').
Proof.
  revert w; induction qs as [|q rest IH]; intros w Hx; [discriminate|].
  cbn [existsb] in Hx.
  destruct (query_dates_convert E q) eqn:Hq.
  - destruct (proj2 (query_params_ok_iff q) Hq) as [kvs0 H0].
    destruct (query_one_facts q kvs0 H0) as [p Hp].
    destruct (Hp w) as (w1 & Hq1 & _).
    destruct (IH w1 Hx) as [w' Hr]; exists w'.
    cbn [query_]; unfold bind; rewrite Hq1, Hr; reflexivity.
  - destruct (query_params E q) as [kvs|e] eqn:Hp.
    + rewrite (proj1 (query_params_ok_iff q) (ex_intro _ kvs Hp)) in Hq; discriminate.
    + exists w; cbn [query_]; unfold bind; rewrite (query_one_raise q e w Hp).
      rewrite (query_params_raise q e Hp); reflexivity.
Qed.

End Params.

(** ** Writes of the Supabase client *)

Lemma convert_dict (kvs : list (string * pyval)) :
  convert_object_to_serializable_json (PDict kvs) = PDict (conv_entries kvs).
Proof.
  induction kvs as [|[k v] r IH]; [reflexivity|].
  change (convert_object_to_serializable_json (PDict ((k, v) :: r))) with
    (match convert_object_to_serializable_json (PDict r) with
     | PDict l => PDict (if is_PNone v then l
                         else (k, convert_object_to_serializable_json v) :: l)
     | x => x end).
  rewrite IH; reflexivity.
Qed.

Lemma lookup_conv_none (kvs : list (string * pyval)) (k : string) :
  lookup_param kvs k = None -> lookup_param (conv_entries kvs) k = None.
Proof.
  unfold lookup_param; induction kvs as [|[k0 v0] r IH]; cbn; [auto|].
  destruct (String.eqb k0 k) eqn:K; [discriminate|].
  intros Hr; destruct (is_PNone v0); cbn; [auto|]; rewrite K; auto.
Qed.

Lemma lookup_conv_some (kvs : list (string * pyval)) (k : string) (v : pyval) :
  lookup_param kvs k = Some v -> is_PNone v = false ->
  lookup_param (conv_entries kvs) k = Some (convert_object_to_serializable_json v).
Proof.
  unfold lookup_param; induction kvs as [|[k0 v0] r IH]; cbn; [discriminate|].
  destruct (String.eqb k0 k) eqn:K.
  - intros Hv Hn; injection Hv as <-; rewrite Hn; cbn; rewrite K; reflexivity.
  - intros Hr Hn; destruct (is_PNone v0); cbn; [auto|]; rewrite K; auto.
Qed.

Lemma writes_logged_nil (E : Env) (w : world) : writes_logged E w [] w.
Proof.
  repeat split; cbn.
  - rewrite app_nil_r; reflexivity.
  - lia.
  - exists []; rewrite app_nil_r; reflexivity.
  - intros i c m Hc; destruct i; discriminate.
Qed.

Lemma writes_logged_app (E : Env) (w w1 w2 : world) (cs1 cs2 : list call) :
  writes_logged E w cs1 w1 -> writes_logged E w1 cs2 w2 ->
  writes_logged E w (cs1 ++ cs2)%list w2.
Proof.
  intros (Ht1 & Hc1 & [l1 Hl1] & Hf1) (Ht2 & Hc2 & [l2 Hl2] & Hf2).
  repeat split.
  - rewrite Ht2, Ht1, map_app, app_assoc; reflexivity.
  - rewrite Hc2, Hc1, length_app; lia.
  - exists (l1 ++ l2)%list; rewrite Hl2, Hl1, app_assoc; reflexivity.
  - intros i c m Hc Hm.
    destruct (Nat.lt_ge_cases i (length cs1)) as [Hi|Hi].
    + rewrite nth_error_app1 in Hc by exact Hi.
      rewrite Hl2; apply in_or_app; left; exact (Hf1 i c m Hc Hm).
    + rewrite nth_error_app2 in Hc by exact Hi.
      apply (Hf2 (i - length cs1) c m Hc).
      rewrite Hc1; replace (w_calls w + length cs1 + (i - length cs1)) with (w_calls w + i)
        by lia; exact Hm.
Qed.

Lemma write_outcome_logged (E : Env) (w : world) (c : call) :
  writes_logged E w [c] (snd (write_outcome E w c)).
Proof.
  unfold writes_logged, write_outcome;
    destruct (respond E (w_calls w) c) as [m|d] eqn:R; cbn;
    (split; [reflexivity|]; split; [lia|]; split).
  - exists [LError (TransportError m)]; reflexivity.
  - intros [|i] c' m' Hc Hm; [|destruct i; discriminate].
    injection Hc as <-; rewrite Nat.add_0_r, R in Hm; injection Hm as <-.
    apply in_or_app; right; left; reflexivity.
  - exists []; rewrite app_nil_r; reflexivity.
  - intros [|i] c' m' Hc Hm; [|destruct i; discriminate].
    injection Hc as <-; rewrite Nat.add_0_r, R in Hm; discriminate.
Qed.

(** The [created_at] step of [SupabaseClient.upsert] goes through when the
    converted dict has no [created_at], or a tuple holding a datetime. *)
Lemma supabase_upsert_dict (E : Env) (table : string) (kvs : list (string * pyval))
    (Hc : lookup_param (conv_entries kvs) "created_at" = None \/
          exists t rest, lookup_param (conv_entries kvs) "created_at" =
                         Some (PTuple (PDateTime t :: rest))) :
  exists j, forall w,
    supabase_upsert E table (PDict kvs) w = write_outcome E w (CUpsert table j).
Proof.
  unfold supabase_upsert; rewrite convert_dict.
  destruct Hc as [Hn | (t & rest & Hs)].
  - exists (PDict (conv_entries kvs)); intros w.
    unfold bind at 1, ret at 1; rewrite py_contains_dict, Hn.
    unfold bind, ret, py_try, execute, write_outcome, log_error, log_world, after_call.
    destruct (respond E (w_calls w) _); reflexivity.
  - exists (PDict (dict_set (conv_entries kvs) "created_at" (PStr (isoformat E t)))); intros w.
    unfold bind at 1, ret at 1; rewrite py_contains_dict, Hs.
    unfold lift, bind, ret; rewrite py_getitem_dict, Hs; cbn.
    unfold py_try, execute, write_outcome, log_error, log_world, after_call.
    destruct (respond E (w_calls w) _); reflexivity.
Qed.

Lemma chunk_json_upsert (E : Env) (document_id : string) (c : DocumentChunk) :
  chunk_date_converts E c = true ->
  exists j, chunk_json E document_id c = Ok j /\
  exists j', forall w,
    supabase_upsert E "documents" j w = write_outcome E w (CUpsert "documents" j').
Proof.
  unfold chunk_json, chunk_date_converts, date_converts; cbv zeta.
  destruct (cm_created_at (chunk_metadata c)) as [ca|]; intros Hok.
  2: { eexists; split; [reflexivity|].
       apply supabase_upsert_dict; left; apply lookup_conv_none; reflexivity. }
  cbn [present_str opt_truthy] in Hok |- *.
  destruct (String.eqb ca "").
  { eexists; split; [reflexivity|].
    apply supabase_upsert_dict; left; apply lookup_conv_none; reflexivity. }
  unfold py_fromtimestamp; rewrite Hok; cbn [negb rbind].
  eexists; split; [reflexivity|].
  apply supabase_upsert_dict; right; exists (to_unix_timestamp E ca), [].
  rewrite (lookup_conv_some _ _ (PTuple [PDateTime (to_unix_timestamp E ca)]));
    [reflexivity | rewrite lookup_dict_set; reflexivity | reflexivity].
Qed.

Lemma chunk_json_raise (E : Env) (document_id : string) (c : DocumentChunk) :
  chunk_date_converts E c = false ->
  chunk_json E document_id c = Raise (ValueError "year is out of range").
Proof.
  unfold chunk_json, chunk_date_converts, date_converts; cbv zeta.
  destruct (cm_created_at (chunk_metadata c)) as [ca|]; [|discriminate].
  cbn [present_str opt_truthy].
  destruct (String.eqb ca ""); [discriminate|].
  intros Hno; unfold py_fromtimestamp; rewrite Hno; reflexivity.
Qed.

Lemma upsert_chunks_logged (E : Env) (document_id : string) (chunks : list DocumentChunk)
    (w : world) :
  forallb (chunk_date_converts E) chunks = true ->
  exists cs w',
    @upsert_chunks E (SupabaseClient E) document_id chunks w = (Ok tt, w') /\
    writes_logged E w cs w' /\ length cs = length chunks /\
    forallb is_document_upsert cs = true.
Proof.
  revert w; induction chunks as [|c rest IH]; intros w Hd.
  - exists [], w; split; [reflexivity|]; split; [apply writes_logged_nil|auto].
  - cbn [forallb] in Hd; apply andb_prop in Hd as [Hd1 Hd2].
    destruct (chunk_json_upsert E document_id c Hd1) as (j0 & Hj0 & j & Hj).
    destruct (IH (snd (write_outcome E w (CUpsert "documents" j))) Hd2)
      as (cs & w' & Hr & Hl & Hlen & Hd).
    pose proof (write_outcome_logged E w (CUpsert "documents" j)) as Hl0.
    exists (CUpsert "documents" j :: cs), w'.
    split.
    { cbn [upsert_chunks]; unfold bind at 1, lift; rewrite Hj0; cbv beta iota.
      unfold bind at 1.
      change (@upsert (SupabaseClient E)) with (supabase_upsert E); rewrite Hj.
      unfold write_outcome in *; destruct (respond E (w_calls w) _); exact Hr. }
    split; [apply (writes_logged_app E w _ w' [_] cs Hl0 Hl)|].
    cbn; split; [congruence|exact Hd].
Qed.

Lemma upsert_chunks_raise (E : Env) (document_id : string) (chunks : list DocumentChunk)
    (w : world) :
  existsb (fun c => negb (chunk_date_converts E c)) chunks = true ->
  exists w', @upsert_chunks E (SupabaseClient E) document_id chunks w =
             (Raise (ValueError "year is out of range"), w').
Proof.
  revert w; induction chunks as [|c rest IH]; intros w Hx; [discriminate|].
  cbn [existsb] in Hx.
  destruct (chunk_date_converts E c) eqn:Hc.
  - destruct (chunk_json_upsert E document_id c Hc) as (j0 & Hj0 & j & Hj).
    destruct (IH (snd (write_outcome E w (CUpsert "documents" j))) Hx) as [w' Hr].
    exists w'.
    cbn [upsert_chunks]; unfold bind at 1, lift; rewrite Hj0; cbv beta iota.
    unfold bind at 1.
    change (@upsert (SupabaseClient E)) with (supabase_upsert E); rewrite Hj.
    unfold write_outcome in *; destruct (respond E (w_calls w) _); exact Hr.
  - exists w; cbn [upsert_chunks]; unfold bind at 1, lift.
    rewrite (chunk_json_raise E document_id c Hc); reflexivity.
Qed.

Lemma upsert_documents_logged (E : Env) (chunks : list (string * list DocumentChunk))
    (w : world) :
  forallb (chunk_date_converts E) (concat (map snd chunks)) = true ->
  exists cs w',
    @upsert_documents E (SupabaseClient E) chunks w = (Ok tt, w') /\
    writes_logged E w cs w' /\ length cs = length (concat (map snd chunks)) /\
    forallb is_document_upsert cs = true.
Proof.
  revert w; induction chunks as [|[d dc] rest IH]; intros w Hdates.
  - exists [], w; split; [reflexivity|]; split; [apply writes_logged_nil|auto].
  - cbn [map snd concat] in Hdates; rewrite forallb_app in Hdates.
    apply andb_prop in Hdates as [Hda Hdb].
    destruct (upsert_chunks_logged E d dc w Hda) as (cs1 & w1 & Hr1 & Hl1 & Hlen1 & Hd1).
    destruct (IH w1 Hdb) as (cs2 & w2 & Hr2 & Hl2 & Hlen2 & Hd2).
    exists (cs1 ++ cs2)%list, w2.
    split; [cbn [upsert_documents]; unfold bind at 1; rewrite Hr1; exact Hr2|].
    split; [exact (writes_logged_app E w w1 w2 cs1 cs2 Hl1 Hl2)|].
    cbn; rewrite !length_app, Hlen1, Hlen2, forallb_app, Hd1, Hd2; auto.
Qed.

Lemma upsert_documents_raise (E : Env) (chunks : list (string * list DocumentChunk))
    (w : world) :
  existsb (fun c => negb (chunk_date_converts E c)) (concat (map snd chunks)) = true ->
  exists w', @upsert_documents E (SupabaseClient E) chunks w =
             (Raise (ValueError "year is out of range"), w').
Proof.
  revert w; induction chunks as [|[d dc] rest IH]; intros w Hx; [discriminate|].
  cbn [map snd concat] in Hx; rewrite existsb_app in Hx.
  destruct (existsb (fun c => negb (chunk_date_converts E c)) dc) eqn:Hdc.
  - destruct (upsert_chunks_raise E d dc w Hdc) as [w' Hr]; exists w'.
    cbn [upsert_documents]; unfold bind at 1; rewrite Hr; reflexivity.
  - assert (Hall : forallb (chunk_date_converts E) dc = true).
    { apply forallb_forall; intros c Hc.
      destruct (chunk_date_converts E c) eqn:Hcc; [reflexivity|].
      assert (Hex : existsb (fun c => negb (chunk_date_converts E c)) dc = true)
        by (apply existsb_exists; exists c; rewrite Hcc; auto).
      congruence. }
    destruct (upsert_chunks_logged E d dc w Hall) as (cs1 & w1 & Hr1 & _).
    destruct (IH w1 Hx) as [w' Hr]; exists w'.
    cbn [upsert_documents]; unfold bind at 1; rewrite Hr1; exact Hr.
Qed.

(** ** Deletes of the Supabase client *)

Lemma date_bound_raises (E : Env) (d : string) : exists e, date_bound E d = Raise e.
Proof. destruct d; eexists; reflexivity. Qed.

Lemma date_pred_ok (E : Env) (mk : pyval -> pred) (o : option string) (ps : list pred) :
  date_pred E mk o = Ok ps -> present_str o = None /\ ps = [].
Proof.
  destruct o as [d|]; cbn; [|intros H; injection H as <-; auto].
  destruct (String.eqb_spec d ""); cbn.
  - intros H; injection H as <-; auto.
  - destruct (date_bound_raises E d) as [e ->]; discriminate.
Qed.

Lemma date_pred_present (E : Env) (mk : pyval -> pred) (o : option string) :
  present_str o <> None -> exists e, date_pred E mk o = Raise e.
Proof.
  destruct o as [d|]; cbn; [|contradiction].
  destruct (String.eqb_spec d ""); cbn; [contradiction|].
  destruct (date_bound_raises E d) as [e ->]; eauto.
Qed.

Lemma preds_on_app (col : string) (l1 l2 : list pred) :
  preds_on col (l1 ++ l2)%list = (preds_on col l1 ++ preds_on col l2)%list.
Proof. apply filter_app. Qed.

Lemma eq_pred_present (col : string) (o : option string) :
  eq_pred col o = opt_list (fun d => PEq col (PStr d)) (present_str o).
Proof.
  destruct o as [d|]; cbn; [|reflexivity].
  destruct (String.eqb_spec d ""); reflexivity.
Qed.

Lemma preds_on_eq_pred (col col' : string) (o : option string) :
  preds_on col' (eq_pred col o) =
  if String.eqb col col' then eq_pred col o else [].
Proof.
  destruct o as [d|]; cbn; [|destruct (String.eqb col col'); reflexivity].
  destruct (negb (d =? "")); cbn; destruct (String.eqb_spec col col'), (String.eqb_spec col' col);
    subst; try contradiction; reflexivity.
Qed.

Lemma filter_predicates_ok (E : Env) (f : DocumentMetadataFilter) (ps : list pred) :
  filter_predicates E f = Ok ps ->
  present_str (f_start_date f) = None /\ present_str (f_end_date f) = None /\
  ps = (eq_pred "document_id" (f_document_id f)
        ++ opt_list (fun s => PEq "source" (py_source s)) (f_source f)
        ++ eq_pred "source_id" (f_source_id f) ++ eq_pred "author" (f_author f))%list.
Proof.
  unfold filter_predicates.
  destruct (date_pred E (PGte "created_at") (f_start_date f)) as [p1|] eqn:H1; [|discriminate].
  destruct (date_pred E (PLte "created_at") (f_end_date f)) as [p2|] eqn:H2; [|discriminate].
  apply date_pred_ok in H1 as [Hs ->]; apply date_pred_ok in H2 as [He ->].
  intros H; injection H as <-; split; [exact Hs|]; split; [exact He|].
  rewrite !app_nil_r; destruct (f_source f); reflexivity.
Qed.

Lemma date_bound_no_fuel (E : Env) (d : string) : date_bound E d <> Raise OutOfFuel.
Proof. destruct d; discriminate. Qed.

Lemma filter_predicates_no_fuel (E : Env) (f : DocumentMetadataFilter) :
  filter_predicates E f <> Raise OutOfFuel.
Proof.
  assert (Hd : forall mk o, date_pred E mk o <> Raise OutOfFuel).
  { intros mk [d|]; cbn; [|discriminate].
    destruct (negb (d =? "")); [|discriminate].
    pose proof (date_bound_no_fuel E d) as Hb.
    destruct (date_bound E d); congruence. }
  unfold filter_predicates.
  pose proof (Hd (PGte "created_at") (f_start_date f)) as H1.
  pose proof (Hd (PLte "created_at") (f_end_date f)) as H2.
  destruct (date_pred E (PGte "created_at") (f_start_date f)); [|exact H1].
  destruct (date_pred E (PLte "created_at") (f_end_date f)); [discriminate|exact H2].
Qed.

Lemma filter_predicates_dates (E : Env) (f : DocumentMetadataFilter) :
  present_str (f_start_date f) <> None \/ present_str (f_end_date f) <> None ->
  exists e, filter_predicates E f = Raise e.
Proof.
  unfold filter_predicates; intros [Hs|He].
  - destruct (date_pred_present E (PGte "created_at") _ Hs) as [e ->]; eauto.
  - destruct (date_pred E (PGte "created_at") (f_start_date f)); [|eauto].
    destruct (date_pred_present E (PLte "created_at") _ He) as [e ->]; eauto.
Qed.

(** What [delete] does over the Supabase client, mode by mode. *)
Lemma server_delete_spec (E : Env) (ids : option (list string))
    (filter : option DocumentMetadataFilter) (delete_all : option bool) (w : world) :
  server_delete E ids filter delete_all w =
  if match delete_all with Some true => true | _ => false end then
    let c := CDeleteLike "documents" "document_id" "%" in
    (Ok (call_ok (respond E (w_calls w) c)), after_call E w c)
  else match ids with
  | Some ((_ :: _) as l) =>
      let c := CDeleteIn "documents" "document_id" l in
      (Ok (call_ok (respond E (w_calls w) c)), after_call E w c)
  | _ =>
      match filter with
      | Some f =>
          match filter_predicates E f with
          | Ok ps =>
              let c := CDeleteWhere "documents" ps in
              (Ok (call_ok (respond E (w_calls w) c)), after_call E w c)
          | Raise _ => (Ok false, w)
          end
      | None => (Ok true, w)
      end
  end.
Proof.
  unfold server_delete, delete.
  destruct (match delete_all with Some true => true | _ => false end).
  - cbn; unfold py_try, supabase_delete_like, bind, execute, ret, call_ok, after_call.
    destruct (respond E (w_calls w) _); reflexivity.
  - destruct ids as [[|i l]|].
    2: cbn; unfold py_try, supabase_delete_in, bind, execute, ret, call_ok, after_call;
         destruct (respond E (w_calls w) _); reflexivity.
    all: destruct filter as [f|]; [|reflexivity].
    all: cbn; unfold py_try, bind, lift, supabase_delete_by_filters, bind, lift.
    all: destruct (filter_predicates E f) as [ps|e] eqn:Hf.
    all: try (unfold execute, ret, call_ok, after_call; destruct (respond E (w_calls w) _);
              reflexivity).
    all: destruct e; try reflexivity; destruct (filter_predicates_no_fuel E f Hf).
Qed.

(** ** Reading a command back *)

Lemma get_command_rows (E : Env) (C : PGClient) (id : string) (rows : list pyval)
    (w w' : world) :
  get_by_id "commands" id (Some Command_fields) w = (Ok (PList rows), w') ->
  @get_command E C id w =
  (match rows with
   | [] => Ok None
   | r :: _ => match command_of_row E r with Ok c => Ok (Some c) | Raise e => Raise e end
   end, w').
Proof.
  intros Hg; unfold get_command, bind at 1; rewrite Hg.
  destruct rows as [|r rs]; cbn; [reflexivity|].
  unfold bind, lift, ret; destruct (command_of_row E r); reflexivity.
Qed.

(** ** The serialization adapter *)

Lemma convert_serialized : forall v, enum_values_atomic v = true ->
  serialized (convert_object_to_serializable_json v) = true.
Proof.
  fix IH 1; intros v Hv; destruct v as [| | | |cls x| |l|l|kvs]; cbn in Hv |- *; auto.
  - destruct x; try discriminate; reflexivity.
  - induction l as [|x r IHl]; cbn in Hv |- *; auto.
    apply andb_prop in Hv as [Hx Hr].
    rewrite (IH x Hx); cbn; exact (IHl Hr).
  - induction kvs as [|[k x] r IHk]; cbn in Hv |- *; auto.
    apply andb_prop in Hv as [Hx Hr].
    destruct (is_PNone x) eqn:Hn; [exact (IHk Hr)|].
    assert (Hc : is_PNone (convert_object_to_serializable_json x) = false).
    { destruct x as [| | | |cls y| | | |]; try discriminate; try reflexivity.
      destruct y; try discriminate; reflexivity. }
    cbn; rewrite Hc, (IH x Hx); exact (IHk Hr).
Qed.

Lemma conv_entries_filter (kvs : list (string * pyval)) :
  conv_entries kvs =
  map (fun kv => (fst kv, convert_object_to_serializable_json (snd kv)))
      (filter (fun kv => negb (is_PNone (snd kv))) kvs).
Proof.
  induction kvs as [|[k v] r IH]; [reflexivity|]; cbn.
  destruct (is_PNone v); cbn; rewrite IH; reflexivity.
Qed.

Lemma lookup_param_absent (kvs : list (string * pyval)) (k : string) :
  ~ In k (map fst kvs) -> lookup_param kvs k = None.
Proof.
  unfold lookup_param; induction kvs as [|[k0 v0] r IH]; cbn; [auto|]; intros Hn.
  destruct (String.eqb k0 k) eqn:K.
  - apply String.eqb_eq in K; subst; tauto.
  - apply IH; tauto.
Qed.

Lemma lookup_conv_entries (kvs : list (string * pyval)) (k : string) :
  NoDup (map fst kvs) ->
  lookup_param (conv_entries kvs) k =
  match lookup_param kvs k with
  | Some v => if is_PNone v then None else Some (convert_object_to_serializable_json v)
  | None => None
  end.
Proof.
  induction kvs as [|[k0 v0] r IH]; cbn; [reflexivity|]; intros Hnd.
  inversion Hnd as [|? ? Hni Hnd']; subst.
  unfold lookup_param at 2; cbn.
  destruct (String.eqb k0 k) eqn:K.
  - apply String.eqb_eq in K; subst; cbn [option_map snd].
    destruct (is_PNone v0).
    + apply lookup_conv_none, lookup_param_absent; exact Hni.
    + unfold lookup_param; cbn; rewrite String.eqb_refl; reflexivity.
  - fold (lookup_param r k); rewrite <- (IH Hnd').
    destruct (is_PNone v0); [reflexivity|].
    unfold lookup_param; cbn; rewrite K; reflexivity.
Qed.

(** ** Names of the query parameters *)

Lemma query_params_names (E : Env) (q : QueryWithEmbedding) (kvs : list (string * pyval))
    (k : string) :
  query_params E q = Ok kvs -> ~ In k query_param_names -> lookup_param kvs k = None.
Proof.
  intros H0 Hk.
  assert (Ne : forall key, In key query_param_names -> k <> key)
    by (intros key Hin ->; exact (Hk Hin)).
  rewrite (query_params_lookup E q kvs H0 k).
  destruct (String.eqb_spec k "in_end_date") as [->|_];
    [exfalso; apply (Ne "in_end_date"); cbn; tauto|].
  destruct (String.eqb_spec k "in_start_date") as [->|_];
    [exfalso; apply (Ne "in_start_date"); cbn; tauto|].
  unfold params_before_dates; cbv zeta.
  destruct (q_filter q) as [f|].
  - rewrite !lookup_set_param_other by (apply Ne; cbn; tauto).
    rewrite lookup_source_step.
    destruct (String.eqb_spec k "in_source") as [->|_];
      [exfalso; apply (Ne "in_source"); cbn; tauto|].
    rewrite lookup_set_param_other by (apply Ne; cbn; tauto).
    rewrite (lookup_opt_set_other _ "in_match_count") by (apply Ne; cbn; tauto).
    unfold lookup_param; cbn [find fst].
    destruct (String.eqb_spec "in_embedding" k) as [<-|_];
      [exfalso; apply (Ne "in_embedding"); cbn; tauto | reflexivity].
  - rewrite (lookup_opt_set_other _ "in_match_count") by (apply Ne; cbn; tauto).
    unfold lookup_param; cbn [find fst].
    destruct (String.eqb_spec "in_embedding" k) as [<-|_];
      [exfalso; apply (Ne "in_embedding"); cbn; tauto | reflexivity].
Qed.

(** * Claims *)

(** C2 (as amended): when every truthy date of the batch's filters converts,
    the batch returns one result per query. Each query makes its own
    similarity call; when that call fails, the query's result is empty and
    the error is in the log, and when it succeeds the query keeps the rows it
    got, whatever the other calls of the batch did. A filter date that
    [datetime.fromtimestamp] rejects raises while the parameters are built,
    outside the [try], and the whole batch fails with that error. *)
Theorem query_isolates_failures (E : Env) (qs : list QueryWithEmbedding) (w : world) :
  (forallb (query_dates_convert E) qs = true ->
  exists rs w',
    @query_ E (SupabaseClient E) qs w = (Ok rs, w') /\ length rs = length qs /\
    forall i q, nth_error qs i = Some q ->
      exists p,
        nth_error (w_trace w') (length (w_trace w) + i) = Some (ECall (rpc_call p)) /\
        (forall m, respond E (w_calls w + i) (rpc_call p) = RFail m ->
           nth_error rs i = Some {| qr_query := q_query q; qr_results := [] |} /\
           In (LError (TransportError m)) (w_log w')) /\
        (forall data cs, respond E (w_calls w + i) (rpc_call p) = ROk data ->
           rbind (py_iter data) (rows_to_chunks E) = Ok cs ->
           nth_error rs i = Some {| qr_query := q_query q; qr_results := cs |})) /\
  (existsb (fun q => negb (query_dates_convert E q)) qs = true ->
   exists w', @query_ E (SupabaseClient E) qs w =
              (Raise (ValueError "year is out of range"), w')).
Proof.
  split; [intros Hdates | apply query_batch_raise].
  destruct (query_batch E qs w Hdates) as (rs & w' & Hr & Hlen & _ & _ & _ & Hi).
  exists rs, w'; split; [exact Hr|]; split; [exact Hlen|].
  intros i q Hq; destruct (Hi i q Hq) as (p & Ht & Hn & Hf).
  exists p; split; [exact Ht|]; split.
  - intros m Hm; split; [|exact (Hf m Hm)].
    rewrite Hn; unfold reply_results; rewrite Hm; reflexivity.
  - intros data cs Hd Hc; rewrite Hn; unfold reply_results; rewrite Hd, Hc; reflexivity.
Qed.

(** C3 (as amended): when the truthy [created_at] of every chunk converts,
    an upsert over the Supabase client makes one write call per chunk, every
    write whose call fails leaves its transport error in the log, and the
    upsert still returns the document ids: the write errors are suppressed by
    [SupabaseClient.upsert], not propagated. A [created_at] that
    [datetime.fromtimestamp] rejects raises in [_upsert], outside any [try],
    and the upsert fails with that error. *)
Theorem upsert_logs_write_errors (E : Env) (chunks : list (string * list DocumentChunk))
    (w : world) :
  (forallb (chunk_date_converts E) (concat (map snd chunks)) = true ->
   exists cs w',
     server_upsert E chunks w = (Ok (map fst chunks), w') /\
     writes_logged E w cs w' /\
     length cs = length (concat (map snd chunks)) /\
     forallb is_document_upsert cs = true) /\
  (existsb (fun c => negb (chunk_date_converts E c)) (concat (map snd chunks)) = true ->
   exists w', server_upsert E chunks w = (Raise (ValueError "year is out of range"), w')).
Proof.
  split; intros Hd.
  - destruct (upsert_documents_logged E chunks w Hd) as (cs & w' & Hr & Hl & Hlen & Hdu).
    exists cs, w'; split; [|auto].
    unfold server_upsert, upsert_, bind; rewrite Hr; reflexivity.
  - destruct (upsert_documents_raise E chunks w Hd) as [w' Hr]; exists w'.
    unfold server_upsert, upsert_, bind; rewrite Hr; reflexivity.
Qed.

(** C5 (as amended): at most one delete mode runs, with one backend call:
    the wildcard delete when [delete_all] is true, else the id-set delete
    when [ids] is non-empty, else the filter delete when a filter is given
    (which makes no call when building its predicates raises); with none of
    the three, no call is made. *)
Theorem delete_runs_at_most_one_mode (E : Env) (ids : option (list string))
    (filter : option DocumentMetadataFilter) (delete_all : option bool) (w : world) :
  (delete_all = Some true ->
   exists b, server_delete E ids filter delete_all w =
             (Ok b, after_call E w (CDeleteLike "documents" "document_id" "%"))) /\
  (delete_all <> Some true -> forall l, ids = Some l -> l <> [] ->
   exists b, server_delete E ids filter delete_all w =
             (Ok b, after_call E w (CDeleteIn "documents" "document_id" l))) /\
  (delete_all <> Some true -> (ids = None \/ ids = Some []) -> forall f, filter = Some f ->
   exists b, server_delete E ids filter delete_all w =
             (Ok b, match filter_predicates E f with
                    | Ok ps => after_call E w (CDeleteWhere "documents" ps)
                    | Raise _ => w
                    end)) /\
  (delete_all <> Some true -> (ids = None \/ ids = Some []) -> filter = None ->
   server_delete E ids filter delete_all w = (Ok true, w)).
Proof.
  rewrite server_delete_spec; repeat split.
  - intros ->; cbn; eauto.
  - intros Hda l -> Hl.
    destruct (match delete_all with Some true => true | _ => false end) eqn:D;
      [destruct delete_all as [[|]|]; try discriminate; contradiction|].
    destruct l as [|x l]; [contradiction|]; cbn; eauto.
  - intros Hda Hids f ->.
    destruct (match delete_all with Some true => true | _ => false end) eqn:D;
      [destruct delete_all as [[|]|]; try discriminate; contradiction|].
    destruct Hids as [-> | ->]; destruct (filter_predicates E f); cbn; eauto.
  - intros Hda Hids ->.
    destruct (match delete_all with Some true => true | _ => false end) eqn:D;
      [destruct delete_all as [[|]|]; try discriminate; contradiction|].
    destruct Hids as [-> | ->]; reflexivity.
Qed.

(** C6: the selected delete mode decides the result: [true] when its
    backend call succeeds, [false] when the call fails or the mode raises
    before it; no exception leaves [delete]. *)
Theorem delete_reports_mode_outcome (E : Env) (ids : option (list string))
    (filter : option DocumentMetadataFilter) (delete_all : option bool) (w : world) :
  (delete_all = Some true ->
   fst (server_delete E ids filter delete_all w) =
   Ok (call_ok (respond E (w_calls w) (CDeleteLike "documents" "document_id" "%")))) /\
  (delete_all <> Some true -> forall l, ids = Some l -> l <> [] ->
   fst (server_delete E ids filter delete_all w) =
   Ok (call_ok (respond E (w_calls w) (CDeleteIn "documents" "document_id" l)))) /\
  (delete_all <> Some true -> (ids = None \/ ids = Some []) -> forall f, filter = Some f ->
   fst (server_delete E ids filter delete_all w) =
   Ok (match filter_predicates E f with
       | Ok ps => call_ok (respond E (w_calls w) (CDeleteWhere "documents" ps))
       | Raise _ => false
       end)).
Proof.
  rewrite server_delete_spec; repeat split.
  - intros ->; reflexivity.
  - intros Hda l -> Hl.
    destruct (match delete_all with Some true => true | _ => false end) eqn:D;
      [destruct delete_all as [[|]|]; try discriminate; contradiction|].
    destruct l as [|x l]; [contradiction|]; reflexivity.
  - intros Hda Hids f ->.
    destruct (match delete_all with Some true => true | _ => false end) eqn:D;
      [destruct delete_all as [[|]|]; try discriminate; contradiction|].
    destruct Hids as [-> | ->]; destruct (filter_predicates E f); reflexivity.
Qed.

(** C7 (as amended): whenever [_query] builds the parameters of a query
    with a filter, a filter field gives its parameter exactly when the field
    is truthy (non-null and non-empty; a [source] when non-null), each under
    its own name, and no other names are used. The parameters are built
    exactly when each truthy date converts with [datetime.fromtimestamp].
    When [delete_by_filters] builds its predicates, the equality predicates
    follow the same rule. *)
Theorem filter_fields_emitted_when_truthy (E : Env) (q : QueryWithEmbedding)
    (f : DocumentMetadataFilter) (Hf : q_filter q = Some f) :
  (forall kvs, query_params E q = Ok kvs ->
     lookup_param kvs "in_document_id" = option_map PStr (present_str (f_document_id f)) /\
     lookup_param kvs "in_source" = option_map (fun s => PStr (Source_value s)) (f_source f) /\
     lookup_param kvs "in_source_id" = option_map PStr (present_str (f_source_id f)) /\
     lookup_param kvs "in_author" = option_map PStr (present_str (f_author f)) /\
     lookup_param kvs "in_start_date" =
       option_map (fun d => PDateTime (to_unix_timestamp E d)) (present_str (f_start_date f)) /\
     lookup_param kvs "in_end_date" =
       option_map (fun d => PDateTime (to_unix_timestamp E d)) (present_str (f_end_date f)) /\
     (forall k, lookup_param kvs k <> None -> In k query_param_names)) /\
  ((exists kvs, query_params E q = Ok kvs) <->
   date_converts E (f_start_date f) && date_converts E (f_end_date f) = true) /\
  (forall ps, filter_predicates E f = Ok ps ->
     preds_on "document_id" ps =
       opt_list (fun d => PEq "document_id" (PStr d)) (present_str (f_document_id f)) /\
     preds_on "source" ps = opt_list (fun s => PEq "source" (py_source s)) (f_source f) /\
     preds_on "source_id" ps =
       opt_list (fun d => PEq "source_id" (PStr d)) (present_str (f_source_id f)) /\
     preds_on "author" ps =
       opt_list (fun d => PEq "author" (PStr d)) (present_str (f_author f))).
Proof.
  split.
  { intros kvs Hk.
    split; [rewrite (query_params_document_id E q kvs Hk); unfold filter_field; rewrite Hf;
            reflexivity|].
    split; [rewrite (query_params_source E q kvs Hk), Hf; reflexivity|].
    split; [rewrite (query_params_source_id E q kvs Hk); unfold filter_field; rewrite Hf;
            reflexivity|].
    split; [rewrite (query_params_author E q kvs Hk); unfold filter_field; rewrite Hf;
            reflexivity|].
    split; [rewrite (query_params_start_date E q kvs Hk); unfold filter_field; rewrite Hf;
            reflexivity|].
    split; [rewrite (query_params_end_date E q kvs Hk); unfold filter_field; rewrite Hf;
            reflexivity|].
    intros k Hkn; destruct (in_dec String.string_dec k query_param_names) as [Hin|Hout];
      [exact Hin | exfalso; exact (Hkn (query_params_names E q kvs k Hk Hout))]. }
  split; [rewrite query_params_ok_iff; unfold query_dates_convert; rewrite Hf; reflexivity|].
  intros ps Hps; destruct (filter_predicates_ok E f ps Hps) as (_ & _ & ->).
  rewrite !preds_on_app, !preds_on_eq_pred.
  assert (Hsrc : forall col, preds_on col (opt_list (fun s => PEq "source" (py_source s)) (f_source f)) =
                             if String.eqb "source" col
                             then opt_list (fun s => PEq "source" (py_source s)) (f_source f)
                             else []).
  { intros col; destruct (f_source f) as [s|]; unfold opt_list, preds_on;
      cbn [filter pred_col]; destruct (String.eqb "source" col); reflexivity. }
  rewrite !Hsrc; cbn [String.eqb Ascii.eqb Bool.eqb]; rewrite !app_nil_r, ?app_nil_l.
  rewrite !eq_pred_present; repeat split; reflexivity.
Qed.

(** C8 (as amended): the adapter replaces an enum member by its value; maps
    a list elementwise; rebuilds a dict from its entries in order, dropping
    those whose value is [None] and converting the others (so with distinct
    keys, a key maps to the converted value exactly when its value is not
    [None]); and returns every other value (string, number, [bool], [None],
    [datetime], tuple) unchanged, so a [datetime] field stays a [datetime]:
    timestamps are not turned into strings by it. When every enum member
    reached has an atomic value, the result has no enum member and no
    [None]-valued field at any depth outside tuples. *)
Theorem convert_object_contract :
  (forall cls x, convert_object_to_serializable_json (PEnum cls x) = x) /\
  (forall l, convert_object_to_serializable_json (PList l) =
             PList (map convert_object_to_serializable_json l)) /\
  (forall kvs, convert_object_to_serializable_json (PDict kvs) =
     PDict (map (fun kv => (fst kv, convert_object_to_serializable_json (snd kv)))
                (filter (fun kv => negb (is_PNone (snd kv))) kvs))) /\
  (forall kvs k, NoDup (map fst kvs) ->
     match convert_object_to_serializable_json (PDict kvs) with
     | PDict kvs' =>
         lookup_param kvs' k =
         match lookup_param kvs k with
         | Some v => if is_PNone v then None else Some (convert_object_to_serializable_json v)
         | None => None
         end
     | _ => False
     end) /\
  (forall v, match v with PDict _ | PList _ | PEnum _ _ => False | _ => True end ->
             convert_object_to_serializable_json v = v) /\
  (forall v, enum_values_atomic v = true ->
             serialized (convert_object_to_serializable_json v) = true) /\
  (forall kvs k t, py_getitem_key (PDict kvs) k = Ok (PDateTime t) ->
     py_getitem_key (convert_object_to_serializable_json (PDict kvs)) k = Ok (PDateTime t)).
Proof.
  split; [reflexivity|]. split; [reflexivity|].
  split; [intros kvs; rewrite convert_dict, conv_entries_filter; reflexivity|].
  split; [intros kvs k Hnd; rewrite convert_dict; exact (lookup_conv_entries kvs k Hnd)|].
  split; [intros v Hv; destruct v; first [contradiction | reflexivity]|].
  split; [exact convert_serialized|].
  intros kvs k t Hk; rewrite convert_dict, py_getitem_dict.
  rewrite py_getitem_dict in Hk.
  destruct (lookup_param kvs k) as [v|] eqn:Hl; [|discriminate].
  injection Hk as ->; rewrite (lookup_conv_some kvs k (PDateTime t) Hl eq_refl); reflexivity.
Qed.

(** C9: with [delete_all] not true, [ids] absent or empty and no filter,
    [delete] makes no backend call, leaves the world as it was and returns
    [true]. *)
Theorem delete_nothing_selected (E : Env) (ids : option (list string))
    (delete_all : option bool) (w : world)
    (Hda : delete_all <> Some true) (Hids : ids = None \/ ids = Some []) :
  server_delete E ids None delete_all w = (Ok true, w).
Proof.
  rewrite server_delete_spec.
  destruct (match delete_all with Some true => true | _ => false end) eqn:D;
    [destruct delete_all as [[|]|]; try discriminate; contradiction|].
  destruct Hids as [-> | ->]; reflexivity.
Qed.

(** C10: when the get-by-id call for a command id returns the rows [rows],
    [get_command] returns [None] exactly when [rows] is empty, and
    otherwise the [Command] built from the first row (or the validation
    error of building it); the world is the one the call left. *)
Theorem get_command_none_iff_no_rows (E : Env) (C : PGClient) (id : string)
    (rows : list pyval) (w w' : world)
    (Hg : get_by_id "commands" id (Some Command_fields) w = (Ok (PList rows), w')) :
  (fst (@get_command E C id w) = Ok None <-> rows = []) /\
  snd (@get_command E C id w) = w' /\
  (forall r rs, rows = r :: rs ->
     fst (@get_command E C id w) =
     match command_of_row E r with Ok c => Ok (Some c) | Raise e => Raise e end).
Proof.
  rewrite (get_command_rows E C id rows w w' Hg); cbn.
  split; [|split; [reflexivity|]].
  - destruct rows as [|r rs]; [split; reflexivity|].
    split; [|discriminate].
    destruct (command_of_row E r); discriminate.
  - intros r rs ->; reflexivity.
Qed.

(** * Further properties of the code *)

(** ** Helpers *)

Lemma lookup_conv_all_none (kvs : list (string * pyval)) (k : string) :
  (forall v, In (k, v) kvs -> is_PNone v = true) ->
  lookup_param (conv_entries kvs) k = None.
Proof.
  unfold lookup_param; induction kvs as [|[k0 v0] r IH]; cbn; [auto|].
  intros Hall.
  assert (Hr : forall v, In (k, v) r -> is_PNone v = true) by (intros v Hv; apply Hall; auto).
  destruct (is_PNone v0) eqn:Hn; [exact (IH Hr)|]; cbn.
  destruct (String.eqb_spec k0 k) as [->|_]; [|exact (IH Hr)].
  rewrite (Hall v0 (or_introl eq_refl)) in Hn; discriminate.
Qed.

Lemma rbind_ok {A B} (r : result A) (k : A -> result B) (b : B) :
  rbind r k = Ok b -> exists a, r = Ok a /\ k a = Ok b.
Proof. destruct r as [a|e]; cbn; [eauto | discriminate]. Qed.

Lemma supabase_upsert_no_created_at (E : Env) (table : string) (kvs : list (string * pyval))
    (w : world) :
  lookup_param (conv_entries kvs) "created_at" = None ->
  supabase_upsert E table (PDict kvs) w = write_outcome E w (CUpsert table (PDict (conv_entries kvs))).
Proof.
  intros Hn; unfold supabase_upsert; rewrite convert_dict.
  unfold bind at 1, ret at 1; rewrite py_contains_dict, Hn.
  unfold bind, ret, py_try, execute, write_outcome, log_error, log_world, after_call.
  destruct (respond E (w_calls w) _); reflexivity.
Qed.

Lemma supabase_upsert_created_at (E : Env) (table : string) (kvs : list (string * pyval))
    (t : Z) (rest : list pyval) (w : world) :
  lookup_param (conv_entries kvs) "created_at" = Some (PTuple (PDateTime t :: rest)) ->
  supabase_upsert E table (PDict kvs) w =
  write_outcome E w
    (CUpsert table (PDict (dict_set (conv_entries kvs) "created_at" (PStr (isoformat E t))))).
Proof.
  intros Hs; unfold supabase_upsert; rewrite convert_dict.
  unfold bind at 1, ret at 1; rewrite py_contains_dict, Hs.
  unfold lift, bind, ret; rewrite py_getitem_dict, Hs; cbn.
  unfold py_try, execute, write_outcome, log_error, log_world, after_call.
  destruct (respond E (w_calls w) _); reflexivity.
Qed.

(** The command's dict keeps every key once, in this order. *)
Lemma command_dict_lookup (c : CommandWithContent) :
  lookup_param (conv_entries (match command_with_content_dict c with
                              | PDict kvs => kvs | _ => [] end)) "id" =
    option_map PStr (cwc_id c) /\
  lookup_param (conv_entries (match command_with_content_dict c with
                              | PDict kvs => kvs | _ => [] end)) "status" =
    Some (PStr (CommandStatus_value (cwc_status c))) /\
  lookup_param (conv_entries (match command_with_content_dict c with
                              | PDict kvs => kvs | _ => [] end)) "created_at" =
    option_map PStr (cwc_created_at c).
Proof.
  destruct c as [ci cs ce cca cua ct cc]; cbn [command_with_content_dict cwc_id cwc_status
    cwc_created_at].
  repeat split.
  - destruct ci as [i|].
    + apply (lookup_conv_some _ _ (PStr i)); reflexivity.
    + apply lookup_conv_all_none; cbn; intros v Hv.
      repeat (destruct Hv as [Hv|Hv]; [try (injection Hv as <-; reflexivity);
                                       try discriminate|]); contradiction.
  - apply (lookup_conv_some _ _ (PEnum "CommandStatus" (PStr (CommandStatus_value cs))));
      reflexivity.
  - destruct cca as [x|].
    + apply (lookup_conv_some _ _ (PStr x)); reflexivity.
    + apply lookup_conv_all_none; cbn; intros v Hv.
      repeat (destruct Hv as [Hv|Hv]; [try (injection Hv as <-; reflexivity);
                                       try discriminate|]); contradiction.
Qed.

Lemma command_dict_shape (c : CommandWithContent) :
  command_with_content_dict c =
  PDict (match command_with_content_dict c with PDict kvs => kvs | _ => [] end).
Proof. reflexivity. Qed.

Lemma supabase_create_write (E : Env) (cmd : CommandWithContent) (w : world) :
  cwc_created_at cmd = None ->
  exists j,
    py_getitem_key j "id" = Ok (PStr (uuid4 E)) /\
    py_getitem_key j "status" = Ok (PStr (CommandStatus_value (cwc_status cmd))) /\
    @create_command E (SupabaseClient E) cmd w =
    (Ok (uuid4 E, set_cwc_id (Some (uuid4 E)) cmd),
     snd (write_outcome E w (CUpsert "commands" j))).
Proof.
  intros Hca.
  set (c1 := set_cwc_id (Some (uuid4 E)) cmd).
  destruct (command_dict_lookup c1) as (Hid & Hst & Hcr).
  assert (Hcr1 : cwc_created_at c1 = None) by (subst c1; destruct cmd; exact Hca).
  rewrite Hcr1 in Hcr.
  exists (PDict (conv_entries (match command_with_content_dict c1 with
                               | PDict kvs => kvs | _ => [] end))); split; [|split].
  3: { unfold create_command; cbv zeta; fold c1.
       change (@upsert (SupabaseClient E)) with (supabase_upsert E).
       unfold bind at 1; rewrite command_dict_shape, supabase_upsert_no_created_at by exact Hcr.
       unfold write_outcome; destruct (respond E _ _); reflexivity. }
  - rewrite py_getitem_dict, Hid; reflexivity.
  - rewrite py_getitem_dict, Hst; subst c1; destruct cmd; reflexivity.
Qed.

(** ** Commands over the Supabase client *)

(** [update_command] of a command without id: [json["id"]] fails on the
    converted dict, which has dropped the [None] id, before any call. *)
Theorem update_command_without_id (E : Env) (cmd : CommandWithContent) (w : world)
    (Hid : cwc_id cmd = None) :
  @update_command (SupabaseClient E) cmd w = (Raise (KeyError "id"), w).
Proof.
  destruct (command_dict_lookup cmd) as (Hl & _ & _); rewrite Hid in Hl.
  unfold update_command; change (@update (SupabaseClient E)) with (supabase_update E).
  unfold bind at 1, supabase_update, bind, ret, lift.
  rewrite command_dict_shape, convert_dict, py_getitem_dict, Hl; reflexivity.
Qed.

(** [update_command] of a command with id [i] makes one update call keyed by
    [i], with the status as its string; unlike [upsert], a failed call is
    not caught: its transport error leaves [update_command]. *)
Theorem update_command_propagates (E : Env) (cmd : CommandWithContent) (i : string)
    (w : world) (Hid : cwc_id cmd = Some i) :
  @update_command (SupabaseClient E) cmd w =
  (match respond E (w_calls w)
           (CUpdate "commands" (convert_object_to_serializable_json (command_with_content_dict cmd))
                    (PStr i)) with
   | RFail m => Raise (TransportError m)
   | ROk _ => Ok true
   end,
   after_call E w (CUpdate "commands"
                     (convert_object_to_serializable_json (command_with_content_dict cmd))
                     (PStr i))) /\
  py_getitem_key (convert_object_to_serializable_json (command_with_content_dict cmd)) "status" =
  Ok (PStr (CommandStatus_value (cwc_status cmd))).
Proof.
  destruct (command_dict_lookup cmd) as (Hl & Hs & _); rewrite Hid in Hl.
  split.
  - unfold update_command; change (@update (SupabaseClient E)) with (supabase_update E).
    unfold bind at 1, supabase_update, bind, ret, lift.
    rewrite (command_dict_shape cmd), convert_dict, py_getitem_dict, Hl; cbn.
    unfold execute, after_call; destruct (respond E _ _); reflexivity.
  - rewrite command_dict_shape, convert_dict, py_getitem_dict, Hs; reflexivity.
Qed.

(** [create_command] of a command without [created_at] writes one row that
    carries the fresh id and the status string, and returns that id whether
    or not the write succeeded; a failed write is only logged. *)
Theorem create_command_single_write (E : Env) (cmd : CommandWithContent) (w : world)
    (Hca : cwc_created_at cmd = None) :
  exists j w1,
    py_getitem_key j "id" = Ok (PStr (uuid4 E)) /\
    py_getitem_key j "status" = Ok (PStr (CommandStatus_value (cwc_status cmd))) /\
    @create_command E (SupabaseClient E) cmd w =
      (Ok (uuid4 E, set_cwc_id (Some (uuid4 E)) cmd), w1) /\
    writes_logged E w [CUpsert "commands" j] w1.
Proof.
  destruct (supabase_create_write E cmd w Hca) as (j & Hi & Hs & Hc).
  exists j, (snd (write_outcome E w (CUpsert "commands" j))).
  split; [exact Hi|]; split; [exact Hs|]; split; [exact Hc|].
  apply write_outcome_logged.
Qed.

(** A command that already carries [created_at] is never created:
    [SupabaseClient.upsert] applies [[0].isoformat()] to the string, which
    raises before any call, and the endpoint answers 500 after logging it. *)
Theorem create_command_with_created_at_fails (E : Env) (fuel : nat)
    (cmd : CommandWithContent) (w : world) (s : string)
    (Hca : cwc_created_at cmd = Some s) :
  exists e,
    @create_command E (SupabaseClient E) cmd w = (Raise e, w) /\
    server_create_command E fuel cmd w = (Ok (HTTPException 500), log_world w e).
Proof.
  set (c1 := set_cwc_id (Some (uuid4 E)) cmd).
  destruct (command_dict_lookup c1) as (_ & _ & Hcr).
  assert (Hcr1 : cwc_created_at c1 = Some s) by (subst c1; destruct cmd; exact Hca).
  rewrite Hcr1 in Hcr; change (option_map PStr (Some s)) with (Some (PStr s)) in Hcr.
  assert (Hc : exists e, e <> OutOfFuel /\
                         @create_command E (SupabaseClient E) cmd w = (Raise e, w)).
  { unfold create_command; cbv zeta; fold c1.
    change (@upsert (SupabaseClient E)) with (supabase_upsert E).
    unfold bind at 1, supabase_upsert.
    rewrite (command_dict_shape c1), convert_dict.
    unfold bind at 1, ret at 1; rewrite py_contains_dict, Hcr.
    unfold lift, bind; rewrite py_getitem_dict, Hcr.
    destruct s as [|a s']; cbn.
    - exists IndexError; split; [discriminate | reflexivity].
    - exists (AttributeError "isoformat"); split; [discriminate | reflexivity]. }
  destruct Hc as (e & He & Hc); exists e; split; [exact Hc|].
  unfold server_create_command, create_command_endpoint, py_try.
  unfold bind at 1; rewrite Hc; cbv beta iota.
  destruct e; try contradiction; reflexivity.
Qed.

(** When the first poll after the creation finds no row, [command.status]
    fails on [None]: the endpoint logs the [AttributeError] and answers 500. *)
Theorem endpoint_missing_command_fails (E : Env) (fuel : nat) (cmd : CommandWithContent)
    (w : world) (Hca : cwc_created_at cmd = None)
    (Hrows : respond E (S (w_calls w)) (get_call (uuid4 E)) = ROk (PList [])) :
  exists w',
    server_create_command E (S fuel) cmd w = (Ok (HTTPException 500), w') /\
    In (LError (AttributeError "status")) (w_log w').
Proof.
  destruct (supabase_create_write E cmd w Hca) as (j & _ & _ & Hc).
  unfold server_create_command, create_command_endpoint, py_try.
  unfold bind at 1; rewrite Hc; cbv beta iota.
  unfold write_outcome;
    destruct (respond E (w_calls w) (CUpsert "commands" j)) as [m|d];
    unfold bind, time; cbn [snd fst w_calls after_call log_world w_calls poll_loop];
    unfold get_command, bind, lift;
    change (@get_by_id (SupabaseClient E)) with (supabase_get_by_id E);
    unfold supabase_get_by_id, execute; cbn [w_calls after_call log_world];
    unfold get_call, Command_fields in Hrows; cbn in Hrows |- *; rewrite Hrows;
    cbn; eexists; split; try reflexivity; apply in_or_app; right; left; reflexivity.
Qed.

(** ** Rows of [match_page_sections] *)

(** The rows of a query map all or nothing: the results are the rows'
    chunks in order when every row maps, and one row that fails empties the
    query's results. *)
Theorem rows_map_all_or_nothing (E : Env) (rows : list pyval) :
  (forall cs, rows_to_chunks E rows = Ok cs <->
              Forall2 (fun r c => row_to_chunk E r = Ok c) rows cs) /\
  ((exists r e, In r rows /\ row_to_chunk E r = Raise e) ->
   reply_results E (ROk (PList rows)) = []).
Proof.
  split.
  - induction rows as [|r rest IH]; intros cs; cbn.
    + split; [intros H; injection H as <-; constructor | intros H; inversion H; reflexivity].
    + split.
      * intros H; apply rbind_ok in H as (c & Hc & H); apply rbind_ok in H as (cs' & Hcs & H).
        injection H as <-; constructor; [exact Hc | apply IH; exact Hcs].
      * intros H; inversion H as [|? c ? cs' Hc Hcs]; subst.
        rewrite Hc; cbn; apply IH in Hcs; rewrite Hcs; reflexivity.
  - intros (r & e & Hin & He); unfold reply_results; cbn.
    destruct (rows_to_chunks E rows) as [cs|e'] eqn:Hr; [|reflexivity].
    exfalso.
    assert (Hf : Forall2 (fun r c => row_to_chunk E r = Ok c) rows cs).
    { clear Hin He; revert cs Hr; induction rows as [|r0 rest IH]; intros cs Hr; cbn in Hr.
      - injection Hr as <-; constructor.
      - apply rbind_ok in Hr as (c & Hc & H); apply rbind_ok in H as (cs' & Hcs & H).
        injection H as <-; constructor; [exact Hc | exact (IH cs' Hcs)]. }
    clear Hr; induction Hf as [|r0 c rest cs' Hc Hf IHf]; [contradiction|].
    destruct Hin as [<-|Hin]; [congruence | exact (IHf Hin)].
Qed.

(** A row that lacks one of the keys [_query] reads fails to map. *)
Theorem row_missing_key_fails (E : Env) (kvs : list (string * pyval)) (k : string)
    (Hk : In k row_keys) (Hn : lookup_param kvs k = None) :
  exists e, row_to_chunk E (PDict kvs) = Raise e.
Proof.
  destruct (row_to_chunk E (PDict kvs)) as [c|e] eqn:H; [exfalso | eauto].
  unfold row_to_chunk in H.
  repeat match goal with
         | Hx : rbind _ _ = Ok _ |- _ => apply rbind_ok in Hx; destruct Hx as (? & ? & ?)
         end.
  cbn in Hk; repeat destruct Hk as [Hk|Hk]; try contradiction; subst k;
    match goal with
    | Hg : py_getitem_key (PDict kvs) _ = Ok _ |- _ =>
        rewrite py_getitem_dict, Hn in Hg; discriminate
    end.
Qed.

(** ** The serialization adapter, further *)

Lemma convert_not_none (x : pyval) :
  enum_values_atomic x = true -> is_PNone x = false ->
  is_PNone (convert_object_to_serializable_json x) = false.
Proof.
  destruct x as [| | | |cls y| | | |]; try discriminate; try reflexivity.
  destruct y; try discriminate; reflexivity.
Qed.

Lemma convert_idem : forall v, enum_values_atomic v = true ->
  convert_object_to_serializable_json (convert_object_to_serializable_json v) =
  convert_object_to_serializable_json v.
Proof.
  fix IH 1; intros v Hv; destruct v as [| | | |cls x| |l|l|kvs]; cbn in Hv; try reflexivity.
  - destruct x; try discriminate; reflexivity.
  - cbn [convert_object_to_serializable_json]; f_equal.
    induction l as [|x r IHl]; cbn in Hv |- *; [reflexivity|].
    apply andb_prop in Hv as [Hx Hr].
    rewrite (IH x Hx); f_equal; exact (IHl Hr).
  - rewrite !convert_dict; f_equal.
    induction kvs as [|[k x] r IHk]; cbn in Hv |- *; [reflexivity|].
    apply andb_prop in Hv as [Hx Hr].
    destruct (is_PNone x) eqn:Hn; [exact (IHk Hr)|].
    cbn; rewrite (convert_not_none x Hx Hn), (IH x Hx), (IHk Hr); reflexivity.
Qed.

(** When every enum member reached has an atomic value, converting twice
    changes nothing more than converting once; and a key of a dict survives
    the conversion exactly when some entry for it holds a value other than
    [None]. *)
Theorem convert_idempotent_keeps_keys :
  (forall v, enum_values_atomic v = true ->
     convert_object_to_serializable_json (convert_object_to_serializable_json v) =
     convert_object_to_serializable_json v) /\
  (forall kvs k,
     py_contains (convert_object_to_serializable_json (PDict kvs)) k =
     existsb (fun kv => String.eqb (fst kv) k && negb (is_PNone (snd kv))) kvs).
Proof.
  split; [exact convert_idem|].
  intros kvs k; rewrite convert_dict; unfold py_contains.
  induction kvs as [|[k0 v0] r IH]; cbn; [reflexivity|].
  destruct (is_PNone v0); cbn; [rewrite andb_false_r; exact IH|].
  rewrite andb_true_r, IH; reflexivity.
Qed.

(** ** Round trip of a command *)

(** The row [update_command] and [create_command] write reads back through
    [Command( **row)] as the command's own fields. *)
Theorem command_row_round_trip (E : Env) (cmd : CommandWithContent) :
  command_of_row E (convert_object_to_serializable_json (command_with_content_dict cmd)) =
  Ok (command_part cmd).
Proof.
  destruct cmd as [ci cs ce cca cua ct [ctext [ms msi mu mca ma]]].
  destruct ci, ce, cca, cua, cs; reflexivity.
Qed.

(** ** Parameters of the similarity search *)

Ltac param_step :=
  first [ rewrite lookup_set_param_other by discriminate
        | rewrite lookup_source_step; cbn [String.eqb Ascii.eqb Bool.eqb] ].

(** The parameters [_query] sends hold the embedding as it is, and [top_k]
    as the match count unless it is absent or [0]. *)
Theorem query_params_embedding_top_k (E : Env) (q : QueryWithEmbedding)
    (kvs : list (string * pyval)) (Hk : query_params E q = Ok kvs) :
  lookup_param kvs "in_embedding" = Some (PList (q_embedding q)) /\
  lookup_param kvs "in_match_count" =
    match q_top_k q with
    | Some k => if Z.eqb k 0 then None else Some (PNum k)
    | None => None
    end.
Proof.
  rewrite !(query_params_lookup E q kvs Hk); cbn [String.eqb Ascii.eqb Bool.eqb].
  unfold params_before_dates.
  destruct (q_filter q) as [f|]; cbv zeta; repeat param_step;
    (split; [rewrite (lookup_opt_set_other _ "in_match_count") by discriminate; reflexivity|]);
    destruct (q_top_k q) as [k|]; try reflexivity;
    destruct (Z.eqb k 0); reflexivity.
Qed.

Lemma isoformat_param_lookup (E : Env) (kvs : list (string * pyval)) (k : string) :
  (forall v, lookup_param kvs k = Some v -> exists t, v = PDateTime t) ->
  exists kvs', (forall w, isoformat_param E (PDict kvs) k w = (Ok (PDict kvs'), w)) /\
               lookup_param kvs' k =
                 option_map (fun v => match v with
                                      | PDateTime t => PStr (isoformat E t)
                                      | _ => v end) (lookup_param kvs k) /\
               (forall k', k' <> k -> lookup_param kvs' k' = lookup_param kvs k').
Proof.
  intros Hdt; unfold isoformat_param; rewrite py_contains_dict.
  destruct (lookup_param kvs k) as [v|] eqn:L.
  - destruct (Hdt v eq_refl) as [t ->].
    exists (dict_set kvs k (PStr (isoformat E t))); split; [|split].
    + intros w; unfold bind, lift; rewrite py_getitem_dict, L; reflexivity.
    + rewrite lookup_dict_set, String.eqb_refl; reflexivity.
    + intros k' Hne; rewrite lookup_dict_set.
      destruct (String.eqb_spec k' k); [contradiction | reflexivity].
  - exists kvs; split; [reflexivity|]; split; [exact L | reflexivity].
Qed.

(** Once [_query] has built the parameters of a query, the Supabase [rpc]
    sends its date bounds as ISO strings of their timestamps, and every other
    parameter as [_query] built it. *)
Theorem rpc_sends_iso_dates (E : Env) (q : QueryWithEmbedding) (kvs0 : list (string * pyval))
    (H0 : query_params E q = Ok kvs0) :
  exists kvs,
    (forall w, supabase_rpc E "match_page_sections" (PDict kvs0) w =
               execute E (rpc_call (PDict kvs)) w) /\
    lookup_param kvs "in_start_date" =
      option_map (fun d => PStr (isoformat E (to_unix_timestamp E d)))
                 (filter_field q f_start_date) /\
    lookup_param kvs "in_end_date" =
      option_map (fun d => PStr (isoformat E (to_unix_timestamp E d)))
                 (filter_field q f_end_date) /\
    (forall k, k <> "in_start_date" -> k <> "in_end_date" ->
               lookup_param kvs k = lookup_param kvs0 k).
Proof.
  destruct (isoformat_param_lookup E kvs0 "in_start_date") as (kvs1 & H1 & Hs1 & Ho1).
  { intros v; rewrite (query_params_start_date E q kvs0 H0).
    destruct (filter_field q f_start_date); cbn; intros Hv; inversion Hv; eexists; reflexivity. }
  destruct (isoformat_param_lookup E kvs1 "in_end_date") as (kvs2 & H2 & He2 & Ho2).
  { intros v; rewrite Ho1 by discriminate; rewrite (query_params_end_date E q kvs0 H0).
    destruct (filter_field q f_end_date); cbn; intros Hv; inversion Hv; eexists; reflexivity. }
  exists kvs2; split; [|split; [|split]].
  - intros w; unfold supabase_rpc, bind; rewrite H1, H2; reflexivity.
  - rewrite Ho2, Hs1, (query_params_start_date E q kvs0 H0) by discriminate.
    destruct (filter_field q f_start_date); reflexivity.
  - rewrite He2, Ho1, (query_params_end_date E q kvs0 H0) by discriminate.
    destruct (filter_field q f_end_date); reflexivity.
  - intros k Hs He; rewrite Ho2, Ho1 by assumption; reflexivity.
Qed.

(** ** A filter that selects nothing *)

Lemma date_pred_absent (E : Env) (mk : pyval -> pred) (o : option string) :
  present_str o = None -> date_pred E mk o = Ok [].
Proof.
  destruct o as [d|]; cbn; [|reflexivity].
  destruct (String.eqb d ""); [reflexivity | discriminate].
Qed.

(** With [delete_all] not true and no ids, a filter whose fields are all
    null or empty gives [delete_by_filters] no predicate: the delete call
    it makes runs on the whole table. *)
Theorem delete_empty_filter_deletes_all (E : Env) (ids : option (list string))
    (f : DocumentMetadataFilter) (delete_all : option bool) (w : world)
    (Hda : delete_all <> Some true) (Hids : ids = None \/ ids = Some [])
    (Hsrc : f_source f = None)
    (Hdoc : present_str (f_document_id f) = None)
    (Hsid : present_str (f_source_id f) = None)
    (Hau : present_str (f_author f) = None)
    (Hst : present_str (f_start_date f) = None)
    (Hen : present_str (f_end_date f) = None) :
  server_delete E ids (Some f) delete_all w =
  (Ok (call_ok (respond E (w_calls w) (CDeleteWhere "documents" []))),
   after_call E w (CDeleteWhere "documents" [])).
Proof.
  assert (Hf : filter_predicates E f = Ok []).
  { unfold filter_predicates.
    rewrite (date_pred_absent E _ _ Hst), (date_pred_absent E _ _ Hen).
    rewrite !eq_pred_present, Hdoc, Hsid, Hau, Hsrc; reflexivity. }
  rewrite server_delete_spec.
  destruct (match delete_all with Some true => true | _ => false end) eqn:D;
    [destruct delete_all as [[|]|]; try discriminate; contradiction|].
  destruct Hids as [-> | ->]; rewrite Hf; reflexivity.
Qed.

(** ** The record written for a chunk *)

Ltac other_key :=
  rewrite lookup_dict_set; cbn [String.eqb Ascii.eqb Bool.eqb].

(** A chunk whose truthy [created_at] converts is written with the dict key
    of its document as [document_id] (not the one of its metadata), its text
    as [content], its id when it has one, and [created_at] as the ISO string
    of the timestamp of a truthy metadata date; with no such date the record
    has no [created_at]. *)
Theorem chunk_write_record (E : Env) (document_id : string) (c : DocumentChunk) (w : world)
    (Hd : chunk_date_converts E c = true) :
  exists j kvs,
    chunk_json E document_id c = Ok j /\
    supabase_upsert E "documents" j w =
      write_outcome E w (CUpsert "documents" (PDict kvs)) /\
    lookup_param kvs "document_id" = Some (PStr document_id) /\
    lookup_param kvs "content" = Some (PStr (chunk_text c)) /\
    lookup_param kvs "id" = option_map PStr (chunk_id c) /\
    lookup_param kvs "created_at" =
      option_map (fun s => PStr (isoformat E (to_unix_timestamp E s)))
                 (present_str (cm_created_at (chunk_metadata c))).
Proof.
  assert (Hid : forall kvs, lookup_param kvs "id" = Some (opt_str (chunk_id c)) ->
                            (forall v, In ("id", v) kvs -> v = opt_str (chunk_id c)) ->
                            lookup_param (conv_entries kvs) "id" = option_map PStr (chunk_id c)).
  { intros kvs Hl Hall; destruct (chunk_id c) as [i|].
    - apply (lookup_conv_some _ _ (PStr i) Hl); reflexivity.
    - apply lookup_conv_all_none; intros v Hv; rewrite (Hall v Hv); reflexivity. }
  unfold chunk_date_converts, date_converts in Hd.
  unfold chunk_json; cbv zeta.
  destruct (cm_created_at (chunk_metadata c)) as [ca|] eqn:Hca;
    [destruct (String.eqb ca "") eqn:Hemp|]; cbn [opt_truthy present_str negb] in Hd |- *;
    rewrite ?Hemp in Hd |- *; cbn [negb option_map] in Hd |- *.
  2: { unfold py_fromtimestamp; rewrite Hd; cbn [rbind].
       eexists; eexists; split; [reflexivity|]; split.
       - apply supabase_upsert_created_at with (rest := []).
         apply (lookup_conv_some _ _ (PTuple [PDateTime (to_unix_timestamp E ca)]));
           [rewrite lookup_dict_set; reflexivity | reflexivity].
       - split; [other_key; apply (lookup_conv_some _ _ (PStr document_id)); reflexivity|].
         split; [other_key; apply (lookup_conv_some _ _ (PStr (chunk_text c))); reflexivity|].
         split; [other_key; apply Hid; [reflexivity|]|].
         + cbn; intros v Hv; repeat (destruct Hv as [Hv|Hv];
             [try (injection Hv as <-; reflexivity); try discriminate|]); contradiction.
         + rewrite lookup_dict_set, String.eqb_refl; reflexivity. }
  all: eexists; eexists; split; [reflexivity|]; split;
    [apply supabase_upsert_no_created_at, lookup_conv_none; reflexivity|].
  all: split; [apply (lookup_conv_some _ _ (PStr document_id)); reflexivity|].
  all: split; [apply (lookup_conv_some _ _ (PStr (chunk_text c))); reflexivity|].
  all: split; [apply Hid; [reflexivity|]|
               apply lookup_conv_none; reflexivity].
  all: cbn; intros v Hv; repeat (destruct Hv as [Hv|Hv];
         [try (injection Hv as <-; reflexivity); try discriminate|]); contradiction.
Qed.

(** * Witnesses and counterexamples *)


(** The first poll sees COMPLETED: the endpoint answers with no error. *)
Lemma create_command_terminal_status_witness :
  exists w', server_create_command completed_env 1 sample_command world0 =
             (Ok (CommandResponse "u" None), w').
Proof.
  destruct (create_command_terminal_status completed_env 1 sample_command world0 "u"
              (set_cwc_id (Some "u") sample_command)
              (snd (@create_command completed_env (SupabaseClient completed_env)
                      sample_command world0)) 0
              {| cmd_id := Some "u"; cmd_status := COMPLETED; cmd_errors := None;
                 cmd_created_at := None; cmd_updated_at := None |})
    as [Hcomp _].
  - vm_compute; reflexivity.
  - intros j Hj; lia.
  - exists (command_row "COMPLETED"), []; split; reflexivity.
  - lia.
  - destruct (Hcomp eq_refl) as (w' & Hr & _); exists w'; exact Hr.
Defined.

(** A filter with a document id and an empty author. *)
Lemma filter_fields_emitted_when_truthy_witness :
  exists kvs,
    query_params pending_env (sample_query (make_filter (Some "doc") (Some "") None)) = Ok kvs /\
    lookup_param kvs "in_document_id" = Some (PStr "doc") /\
    lookup_param kvs "in_author" = None.
Proof.
  destruct (filter_fields_emitted_when_truthy pending_env
              (sample_query (make_filter (Some "doc") (Some "") None))
              (make_filter (Some "doc") (Some "") None) eq_refl)
    as (Hl & Hiff & _).
  destruct (proj2 Hiff eq_refl) as [kvs Hk].
  destruct (Hl kvs Hk) as (H1 & _ & _ & H4 & _).
  exists kvs; split; [exact Hk|].
  split; [rewrite H1; reflexivity | rewrite H4; reflexivity].
Defined.

Lemma delete_nothing_selected_witness :
  server_delete pending_env None None None world0 = (Ok true, world0).
Proof.
  apply (delete_nothing_selected pending_env None None world0);
    [discriminate | left; reflexivity].
Defined.

Lemma get_command_none_iff_no_rows_witness :
  fst (@get_command completed_env (SupabaseClient completed_env) "u" world0) =
  Ok (Some {| cmd_id := Some "u"; cmd_status := COMPLETED; cmd_errors := None;
              cmd_created_at := None; cmd_updated_at := None |}).
Proof.
  destruct (get_command_none_iff_no_rows completed_env (SupabaseClient completed_env) "u"
              [command_row "COMPLETED"] world0
              (snd (supabase_get_by_id completed_env "commands" "u" (Some Command_fields) world0)))
    as (_ & _ & H3).
  - vm_compute; reflexivity.
  - rewrite (H3 _ [] eq_refl); reflexivity.
Defined.

(** Every write of the backend fails, yet the upsert returns the document id
    and only logs the error. *)
Lemma upsert_write_error_suppressed :
  fst (server_upsert failing_env [("doc", [sample_chunk])] world0) = Ok ["doc"] /\
  In (LError (TransportError "connection refused"))
     (w_log (snd (server_upsert failing_env [("doc", [sample_chunk])] world0))).
Proof. vm_compute; split; [reflexivity | left; reflexivity]. Qed.

(** No argument given: no delete mode runs and no call is made. *)
Lemma delete_without_arguments_runs_no_mode :
  server_delete failing_env None None None world0 = (Ok true, world0).
Proof. reflexivity. Qed.

(** A present but empty author gives no [in_author]. *)
Lemma present_fields_without_parameter :
  f_author (make_filter None (Some "") None) = Some "" /\
  match query_params pending_env (sample_query (make_filter None (Some "") None)) with
  | Ok kvs => lookup_param kvs "in_author" = None
  | Raise _ => False
  end.
Proof. vm_compute; split; reflexivity. Qed.

(** A [datetime] field goes through the adapter unchanged. *)
Lemma timestamp_stays_datetime :
  convert_object_to_serializable_json (PDict [("created_at", PDateTime 1672531200)]) =
  PDict [("created_at", PDateTime 1672531200)].
Proof. reflexivity. Qed.

Lemma update_command_without_id_witness :
  cwc_id sample_command = None /\
  @update_command (SupabaseClient no_rows_env) sample_command world0 =
    (Raise (KeyError "id"), world0).
Proof.
  split; [reflexivity|].
  apply (update_command_without_id no_rows_env sample_command world0); reflexivity.
Defined.

Lemma update_command_propagates_witness :
  fst (@update_command (SupabaseClient failing_env)
         (set_cwc_id (Some "u") sample_command) world0) =
  Raise (TransportError "connection refused").
Proof.
  destruct (update_command_propagates failing_env (set_cwc_id (Some "u") sample_command) "u"
              world0 eq_refl) as [H _].
  rewrite H; reflexivity.
Defined.

Lemma create_command_single_write_witness :
  cwc_created_at sample_command = None /\
  fst (@create_command failing_env (SupabaseClient failing_env) sample_command world0) =
    Ok ("u", set_cwc_id (Some "u") sample_command).
Proof.
  split; [reflexivity|].
  destruct (create_command_single_write failing_env sample_command world0 eq_refl)
    as (j & w1 & _ & _ & H & _).
  rewrite H; reflexivity.
Defined.

Lemma create_command_with_created_at_fails_witness :
  cwc_created_at dated_command = Some "2023-01-01" /\
  exists e, server_create_command pending_env 3 dated_command world0 =
            (Ok (HTTPException 500), log_world world0 e).
Proof.
  split; [reflexivity|].
  destruct (create_command_with_created_at_fails pending_env 3 dated_command world0
              "2023-01-01" eq_refl) as (e & _ & H).
  exists e; exact H.
Defined.

Lemma endpoint_missing_command_fails_witness :
  exists w', server_create_command no_rows_env 4 sample_command world0 =
               (Ok (HTTPException 500), w') /\
             In (LError (AttributeError "status")) (w_log w').
Proof.
  apply (endpoint_missing_command_fails no_rows_env 3 sample_command world0); reflexivity.
Defined.

Lemma row_missing_key_fails_witness :
  exists e, row_to_chunk no_rows_env (PDict [("id", PStr "c1")]) = Raise e.
Proof.
  apply (row_missing_key_fails no_rows_env [("id", PStr "c1")] "content");
    [right; left; reflexivity | reflexivity].
Defined.

Lemma delete_empty_filter_deletes_all_witness :
  server_delete no_rows_env None (Some blank_filter) None world0 =
  (Ok (call_ok (respond no_rows_env 0 (CDeleteWhere "documents" []))),
   after_call no_rows_env world0 (CDeleteWhere "documents" [])).
Proof.
  apply (delete_empty_filter_deletes_all no_rows_env None blank_filter None world0);
    first [discriminate | left; reflexivity | reflexivity].
Defined.


(** The second query's start date is past year 9999: the batch fails after
    the first query's call. *)
Lemma bad_date_fails_batch :
  fst (@query_ far_date_env (SupabaseClient far_date_env)
         [sample_query (make_filter None None None);
          sample_query (make_filter None None (Some "9999-12-31T23:59:59-12:00"))] world0) =
    Raise (ValueError "year is out of range") /\
  length (w_trace (snd (@query_ far_date_env (SupabaseClient far_date_env)
         [sample_query (make_filter None None None);
          sample_query (make_filter None None (Some "9999-12-31T23:59:59-12:00"))] world0))) = 1.
Proof. vm_compute; split; reflexivity. Qed.

Lemma query_params_embedding_top_k_witness :
  exists kvs,
    query_params pending_env (sample_query (make_filter (Some "doc") None None)) = Ok kvs /\
    lookup_param kvs "in_embedding" = Some (PList [PNum 1]) /\
    lookup_param kvs "in_match_count" = Some (PNum 3).
Proof.
  destruct (query_params pending_env (sample_query (make_filter (Some "doc") None None)))
    as [kvs|e] eqn:H; [|vm_compute in H; discriminate].
  destruct (query_params_embedding_top_k pending_env
              (sample_query (make_filter (Some "doc") None None)) kvs H) as [He Hm].
  exists kvs; split; [reflexivity|]; split; [rewrite He | rewrite Hm]; reflexivity.
Defined.

Lemma rpc_sends_iso_dates_witness :
  exists kvs0 kvs,
    query_params pending_env (sample_query (make_filter None None (Some "2023-01-01"))) =
      Ok kvs0 /\
    lookup_param kvs "in_start_date" = Some (PStr "2023-01-01T00:00:00") /\
    forall w, supabase_rpc pending_env "match_page_sections" (PDict kvs0) w =
              execute pending_env (rpc_call (PDict kvs)) w.
Proof.
  destruct (query_params pending_env (sample_query (make_filter None None (Some "2023-01-01"))))
    as [kvs0|e] eqn:H0; [|vm_compute in H0; discriminate].
  destruct (rpc_sends_iso_dates pending_env
              (sample_query (make_filter None None (Some "2023-01-01"))) kvs0 H0)
    as (kvs & Hr & Hs & _).
  exists kvs0, kvs; split; [reflexivity|]; split; [rewrite Hs; reflexivity | exact Hr].
Defined.

Lemma chunk_write_record_witness :
  chunk_date_converts pending_env sample_chunk = true /\
  exists j kvs,
    chunk_json pending_env "doc" sample_chunk = Ok j /\
    supabase_upsert pending_env "documents" j world0 =
      write_outcome pending_env world0 (CUpsert "documents" (PDict kvs)) /\
    lookup_param kvs "created_at" = Some (PStr "2023-01-01T00:00:00").
Proof.
  split; [reflexivity|].
  destruct (chunk_write_record pending_env "doc" sample_chunk world0 eq_refl)
    as (j & kvs & Hj & Hu & _ & _ & _ & Hc).
  exists j, kvs; split; [exact Hj|]; split; [exact Hu | rewrite Hc; reflexivity].
Defined.
